(** * sql_explorer: the data-access layer of the notes service

    A shallow embedding of [sql_explorer/database/crud.py], both the [Crud]
    the routes use and the session-per-call [CrudOld], together with the
    pieces they run on: the [Note] entity of [database/schemas.py], the request
    models of [routers/models.py], the path operations of
    [routers/notes_router.py], and a state-passing model of the SQLAlchemy
    session the CRUD functions receive as [db_session].

    Python objects live in a heap and are handled through references, so that
    the object a caller passes to [add_new_note] is the very object the session
    fills in, and the object [update_note] assigns to is the one the session
    flushes. *)

From Stdlib Require Import Ascii.
From stdpp Require Import base option list gmap strings pretty sorting.

Local Open Scope Z_scope.

(** ** Values of the data model *)

(** A naive [datetime.datetime], as the store hands it back. *)
Record datetime := mk_datetime {
  year : N; month : N; day : N;
  hour : N; minute : N; second : N; microsecond : N }.

Definition zero_pad (width : nat) (n : N) : string :=
  let digits := pretty n in
  String.concat "" (replicate (width - String.length digits) "0") +:+ digits.

(** [str(d)], that is [d.isoformat(sep=' ')]. *)
Definition str_datetime (d : datetime) : string :=
  zero_pad 4 (year d) +:+ "-" +:+ zero_pad 2 (month d) +:+ "-" +:+ zero_pad 2 (day d)
  +:+ " " +:+ zero_pad 2 (hour d) +:+ ":" +:+ zero_pad 2 (minute d)
  +:+ ":" +:+ zero_pad 2 (second d)
  +:+ (if decide (microsecond d = 0%N) then "" else "." +:+ zero_pad 6 (microsecond d)).

(** [str(n)] for an [int]. *)
Definition str_int (n : Z) : string := pretty n.

(** Formatting an attribute that may still be [None]. *)
Definition str_option {A} (str : A → string) (o : option A) : string :=
  match o with Some a => str a | None => "None" end.

(** *** database/schemas.py *)

(** An instance of the mapped class [Note]. [id] is [None] until the row is
    inserted; [date_created] is [None] while the store-side default has not
    been loaded into the object. *)
Record Note := mkNote {
  id : option Z;
  title : string;
  content : string;
  date_created : option datetime }.

(** A row of the table [notes]; every column is NOT NULL. [title] is declared
    [String(50)]; SQLite, the store the project is set up for, keeps longer
    text as it is. *)
Record Row := mkRow {
  row_id : Z;
  row_title : string;
  row_content : string;
  row_date_created : datetime }.

Global Instance datetime_eq_dec : EqDecision datetime.
Proof. solve_decision. Defined.
Global Instance Note_eq_dec : EqDecision Note.
Proof. solve_decision. Defined.
Global Instance Row_eq_dec : EqDecision Row.
Proof. solve_decision. Defined.
Global Instance Note_inhabited : Inhabited Note :=
  populate (mkNote None "" "" None).

(** The object the ORM builds from a row. *)
Definition note_of_row (row : Row) : Note :=
  mkNote (Some (row_id row)) (row_title row) (row_content row)
         (Some (row_date_created row)).

(** *** routers/models.py *)

Record NoteIn := mkNoteIn { NoteIn_title : string; NoteIn_content : string }.

(** *** fastapi.HTTPException and the other failures a session can raise *)

Record HTTPException := mkHTTPException { status_code : Z; detail : string }.

Inductive exn :=
  | HTTPError (e : HTTPException)
  | IntegrityError
  | InvalidRequestError.

(** What a public CRUD method hands back to its caller: Python is dynamically
    typed, and the methods return strings, one object, or a list of objects. *)
Inductive value :=
  | VStr (s : string)
  | VRef (r : nat)
  | VList (rs : list nat).

(** ** The session and the store behind it *)

Definition ref := nat.

Inductive Attr := attr_title | attr_content.

(** The session methods the CRUD layer calls, as they are called. *)
Inductive Call :=
  | call_execute
  | call_add (r : ref)
  | call_flush
  | call_refresh (r : ref)
  | call_commit
  | call_get (note_id : Z)
  | call_delete (r : ref).

(** Everything a CRUD call can read or change through [db_session]:
    - [heap]: the Python objects, addressed by reference;
    - [identity_map]: the persistent objects of the session, by primary key;
    - [new], [dirty], [deleted]: the pending unit of work;
    - [txn]: the table [notes] as the open transaction sees it;
    - [db]: the committed table;
    - [clock]: what [now()] evaluates to in the store;
    - [calls]: the session methods called so far, oldest first. *)
Record Session := mkSession {
  heap : list Note;
  identity_map : gmap Z ref;
  new : list ref;
  dirty : list (ref * Attr);
  deleted : list ref;
  txn : list Row;
  db : list Row;
  clock : datetime;
  calls : list Call }.

Definition set_heap (h : list Note) (s : Session) : Session :=
  mkSession h (identity_map s) (new s) (dirty s) (deleted s) (txn s) (db s) (clock s) (calls s).
Definition set_identity_map (m : gmap Z ref) (s : Session) : Session :=
  mkSession (heap s) m (new s) (dirty s) (deleted s) (txn s) (db s) (clock s) (calls s).
Definition set_new (l : list ref) (s : Session) : Session :=
  mkSession (heap s) (identity_map s) l (dirty s) (deleted s) (txn s) (db s) (clock s) (calls s).
Definition set_dirty (l : list (ref * Attr)) (s : Session) : Session :=
  mkSession (heap s) (identity_map s) (new s) l (deleted s) (txn s) (db s) (clock s) (calls s).
Definition set_deleted (l : list ref) (s : Session) : Session :=
  mkSession (heap s) (identity_map s) (new s) (dirty s) l (txn s) (db s) (clock s) (calls s).
Definition set_txn (t : list Row) (s : Session) : Session :=
  mkSession (heap s) (identity_map s) (new s) (dirty s) (deleted s) t (db s) (clock s) (calls s).
Definition set_db (t : list Row) (s : Session) : Session :=
  mkSession (heap s) (identity_map s) (new s) (dirty s) (deleted s) (txn s) t (clock s) (calls s).
Definition set_clock (d : datetime) (s : Session) : Session :=
  mkSession (heap s) (identity_map s) (new s) (dirty s) (deleted s) (txn s) (db s) d (calls s).
Definition set_calls (l : list Call) (s : Session) : Session :=
  mkSession (heap s) (identity_map s) (new s) (dirty s) (deleted s) (txn s) (db s) (clock s) l.

(** [async with db_session() as session]: a session with nothing loaded and
    nothing pending, over the committed table. *)
Definition open_session (table : list Row) (now : datetime) : Session :=
  mkSession [] ∅ [] [] [] table table now [].

(** ** A state and exception monad *)

Inductive result (A : Type) :=
  | Ok (a : A)
  | Raise (e : exn).
Arguments Ok {A} a.
Arguments Raise {A} e.

(** A computation returns or raises, and leaves a state behind either way. *)
Definition M (A : Type) : Type := Session → result A * Session.

Definition ret {A} (a : A) : M A := λ s, (Ok a, s).
Definition raise {A} (e : exn) : M A := λ s, (Raise e, s).
Definition bind {A B} (m : M A) (k : A → M B) : M B := λ s,
  match m s with
  | (Ok a, s') => k a s'
  | (Raise e, s') => (Raise e, s')
  end.
Definition stateful {A} (f : Session → result A * Session) : M A := f.
Definition gets {A} (f : Session → A) : M A := λ s, (Ok (f s), s).
Definition modify (f : Session → Session) : M unit := λ s, (Ok tt, f s).

Global Instance M_ret : MRet M := @ret.
Global Instance M_bind : MBind M := λ A B k m, bind m k.

Definition log (c : Call) : M unit := modify (λ s, set_calls (calls s ++ [c]) s).

(** ** The store: table [notes] *)

(** [SELECT ... WHERE id = note_id]: the primary key matches at most one row. *)
Definition find_row (note_id : Z) (rows : list Row) : option Row :=
  snd <$> list_find (λ row, row_id row = note_id) rows.

(** [ORDER BY notes.id]. *)
Definition id_le (a b : Row) : Prop := row_id a ≤ row_id b.
Global Instance id_le_dec a b : Decision (id_le a b) := Z_le_dec _ _.
Definition order_by_id (rows : list Row) : list Row := merge_sort id_le rows.

(** The keys of the table are signed 64-bit integers. *)
Definition key_min : Z := - 2 ^ 63.
Definition key_max : Z := 2 ^ 63 - 1.
Definition in_key_range (i : Z) : Prop := key_min ≤ i ≤ key_max.
Global Instance in_key_range_dec i : Decision (in_key_range i) := _.

(** The key the store gives a row inserted without one: 1 in an empty table,
    otherwise one more than the largest key in use. This is the store's rule
    as long as the largest key in use is below [key_max]; once [key_max] is
    in use the store tries unused keys at random instead, which [fresh_id]
    does not describe. Statements about the keys handed out over several
    inserts assume that they stay within [key_max]. *)
Definition max_id (rows : list Row) : option Z :=
  foldr (λ row acc, Some (from_option (Z.max (row_id row)) (row_id row) acc))
        None rows.
Definition fresh_id (rows : list Row) : Z :=
  match max_id rows with Some m => m + 1 | None => 1 end.

(** [UPDATE notes SET col = v WHERE id = note_id]. *)
Definition set_column (a : Attr) (v : string) (row : Row) : Row :=
  match a with
  | attr_title => mkRow (row_id row) v (row_content row) (row_date_created row)
  | attr_content => mkRow (row_id row) (row_title row) v (row_date_created row)
  end.
Definition update_row (note_id : Z) (a : Attr) (v : string) (rows : list Row) : list Row :=
  (λ row, if decide (row_id row = note_id) then set_column a v row else row) <$> rows.

(** [DELETE FROM notes WHERE id = note_id]. *)
Definition delete_row (note_id : Z) (rows : list Row) : list Row :=
  filter (λ row, row_id row ≠ note_id) rows.

(** ** The session's methods *)

Definition getattr (r : ref) : M Note := gets (λ s, heap s !!! r).

Definition read_attr (a : Attr) (o : Note) : string :=
  match a with attr_title => title o | attr_content => content o end.
Definition write_attr (a : Attr) (v : string) (o : Note) : Note :=
  match a with
  | attr_title => mkNote (id o) v (content o) (date_created o)
  | attr_content => mkNote (id o) (title o) v (date_created o)
  end.

(** An object is persistent when the identity map holds it under its key. *)
Definition is_persistent (s : Session) (r : ref) : bool :=
  match id (heap s !!! r) with
  | Some i => bool_decide (identity_map s !! i = Some r)
  | None => false
  end.

(** [Note(title=..., content=...)]: a transient object. *)
Definition Note_new (t c : string) : M ref := λ s,
  (Ok (length (heap s)), set_heap (heap s ++ [mkNote None t c None]) s).

(** [obj.title = v] / [obj.content = v]; the session tracks the change when
    the object is persistent. *)
Definition setattr (r : ref) (a : Attr) (v : string) : M unit := modify (λ s,
  let s' := set_heap (<[r := write_attr a v (heap s !!! r)]> (heap s)) s in
  if is_persistent s r then set_dirty (dirty s ++ [(r, a)]) s' else s').

(** [session.add(obj)]. *)
Definition session_add (r : ref) : M unit :=
  log (call_add r);;
  modify (λ s,
    if is_persistent s r || bool_decide (r ∈ new s) then s
    else set_new (new s ++ [r]) s).

(** The INSERT of one pending object. The key is generated unless the object
    carries one, [date_created] defaults to [now()]. The statement returns
    the generated columns ([RETURNING id, date_created]): the object learns
    its key and its timestamp, and becomes persistent. *)
Definition insert_new (r : ref) (s : Session) : exn + Session :=
  let o := heap s !!! r in
  let i := default (fresh_id (txn s)) (id o) in
  if decide (i ∈ row_id <$> txn s) then inl IntegrityError
  else
    let row := mkRow i (title o) (content o) (default (clock s) (date_created o)) in
    inr (set_txn (txn s ++ [row])
        (set_heap (<[r := note_of_row row]> (heap s))
        (set_identity_map (<[i := r]> (identity_map s)) s))).

Fixpoint insert_all (rs : list ref) (s : Session) : exn + Session :=
  match rs with
  | [] => inr s
  | r :: rs' =>
      match insert_new r s with
      | inl e => inl e
      | inr s' => insert_all rs' s'
      end
  end.

(** The UPDATE for one tracked attribute change. *)
Definition update_dirty (s : Session) (ra : ref * Attr) : Session :=
  let o := heap s !!! ra.1 in
  match id o with
  | Some i => set_txn (update_row i ra.2 (read_attr ra.2 o) (txn s)) s
  | None => s
  end.

(** The DELETE for one object marked deleted; the object leaves the session. *)
Definition delete_marked (s : Session) (r : ref) : Session :=
  match id (heap s !!! r) with
  | Some i =>
      set_txn (delete_row i (txn s)) (set_identity_map (delete i (identity_map s)) s)
  | None => s
  end.

(** A failed flush rolls the transaction back and empties the session. *)
Definition rollback (s : Session) : Session :=
  set_txn (db s) (set_new [] (set_dirty [] (set_deleted [] (set_identity_map ∅ s)))).

(** The unit of work: INSERTs, then UPDATEs, then DELETEs. *)
Definition flush_pending : M unit := λ s,
  match insert_all (new s) s with
  | inl e => (Raise e, rollback s)
  | inr s1 =>
      let s2 := foldl update_dirty s1 (dirty s) in
      let s3 := foldl delete_marked s2 (deleted s) in
      (Ok tt, set_new [] (set_dirty [] (set_deleted [] s3)))
  end.

(** [await session.flush()]. *)
Definition session_flush : M unit := log call_flush;; flush_pending.

(** [await session.refresh(obj)]: every attribute is read again from the row;
    pending changes to the object are dropped. *)
Definition session_refresh (r : ref) : M unit :=
  log (call_refresh r);;
  stateful (λ s,
    if is_persistent s r then
      match id (heap s !!! r) ≫= λ i, find_row i (txn s) with
      | Some row =>
          (Ok tt, set_heap (<[r := note_of_row row]> (heap s))
                  (set_dirty (filter (λ ra, ra.1 ≠ r) (dirty s)) s))
      | None => (Raise InvalidRequestError, s)
      end
    else (Raise InvalidRequestError, s)).

(** [await session.commit()]: flush what is pending, then make the
    transaction's table the committed one. The sessions are made with
    [expire_on_commit=False], so loaded objects keep their attributes. *)
Definition session_commit : M unit :=
  log call_commit;; flush_pending;; modify (λ s, set_db (txn s) s).

(** [await session.get(Note, note_id)]: the identity map answers first; else
    the row is selected and an object is built for it; else [None]. This is
    the lookup for a [note_id] the store can take as a key ([in_key_range]).
    A Python int outside that range never reaches the table: the driver
    refuses to bind it and the call raises [OverflowError], a path that is
    not modelled here. Statements about ids with no matching row therefore
    assume [in_key_range]. *)
Definition session_get (note_id : Z) : M (option ref) :=
  log (call_get note_id);;
  stateful (λ s,
    match identity_map s !! note_id with
    | Some r => (Ok (Some r), s)
    | None =>
        match find_row note_id (txn s) with
        | Some row =>
            let r := length (heap s) in
            (Ok (Some r), set_heap (heap s ++ [note_of_row row])
                          (set_identity_map (<[note_id := r]> (identity_map s)) s))
        | None => (Ok None, s)
        end
    end).

(** [await session.delete(obj)]. *)
Definition session_delete (r : ref) : M unit :=
  log (call_delete r);;
  stateful (λ s,
    if is_persistent s r then (Ok tt, set_deleted (deleted s ++ [r]) s)
    else if bool_decide (r ∈ new s) then (Ok tt, set_new (filter (λ r', r' ≠ r) (new s)) s)
    else (Raise InvalidRequestError, s)).

(** The object for one result row: the one the session already holds for that
    key, else a new one. *)
Definition load_row (row : Row) (s : Session) : ref * Session :=
  match identity_map s !! row_id row with
  | Some r => (r, s)
  | None =>
      let r := length (heap s) in
      (r, set_heap (heap s ++ [note_of_row row])
          (set_identity_map (<[row_id row := r]> (identity_map s)) s))
  end.

Fixpoint load_rows (rows : list Row) (s : Session) : list ref * Session :=
  match rows with
  | [] => ([], s)
  | row :: rows' =>
      let '(r, s1) := load_row row s in
      let '(rs, s2) := load_rows rows' s1 in
      (r :: rs, s2)
  end.

(** [(await session.execute(select(Note).order_by(Note.id))).scalars().all()];
    the sessions are made with [autoflush=False]. *)
Definition session_select_all_ordered : M (list ref) :=
  log call_execute;;
  stateful (λ s, let '(rs, s') := load_rows (order_by_id (txn s)) s in (Ok rs, s')).

(** [async with db_session() as session: body]: the body runs in a session of
    its own, with nothing loaded and nothing pending, over the committed
    table; when the block is left, by return or by exception, the session is
    closed: what was not committed is rolled back and its objects are
    detached. The objects themselves stay in the heap. *)
Definition with_session {A} (body : M A) : M A := λ s,
  let '(out, s') := body (rollback s) in (out, rollback s').

(** ** database/crud.py *)

Definition not_found_detail (note_id : Z) : string :=
  "Note with id: " +:+ str_int note_id +:+ " not found".

Module Crud.

Definition get_all_notes : M value :=
  notes ← session_select_all_ordered;
  mret (VList notes).

Definition add_new_note (new_note : ref) : M value :=
  session_add new_note;;
  session_flush;;
  session_refresh new_note;;
  session_commit;;
  n ← getattr new_note;
  mret (VStr ("New note " +:+ title n +:+ " with id " +:+ str_option str_int (id n)
              +:+ " created at " +:+ str_option str_datetime (date_created n))).

Definition _get_note_by_id_helper (note_id : Z) : M ref :=
  note ← session_get note_id;
  match note with
  | None => raise (HTTPError (mkHTTPException 404 (not_found_detail note_id)))
  | Some r => mret r
  end.

Definition get_note (note_id : Z) : M value :=
  note ← _get_note_by_id_helper note_id;
  mret (VRef note).

Definition update_note (note_id : Z) (updated_note_data : NoteIn) : M value :=
  note ← _get_note_by_id_helper note_id;
  setattr note attr_title (NoteIn_title updated_note_data);;
  setattr note attr_content (NoteIn_content updated_note_data);;
  session_commit;;
  n ← getattr note;
  mret (VStr ("Note " +:+ title n +:+ " updated")).

Definition delete_note (note_id : Z) : M value :=
  note ← _get_note_by_id_helper note_id;
  session_delete note;;
  session_commit;;
  n ← getattr note;
  mret (VStr ("Note " +:+ title n +:+ " with id " +:+ str_option str_int (id n)
              +:+ " removed")).

End Crud.

Module CrudOld.

Definition _get_note_by_id_helper (note_id : Z) : M ref :=
  note ← session_get note_id;
  match note with
  | None =>
      raise (HTTPError (mkHTTPException 404 "Note with id: {note_id} not found"))
  | Some r => mret r
  end.

Definition dependency_injected_get_all_notes : M value :=
  notes ← session_select_all_ordered;
  mret (VList notes).

Definition dependency_injected_add_new_note (new_note : ref) : M unit :=
  session_add new_note.

Definition get_all_notes : M value :=
  with_session (notes ← session_select_all_ordered; mret (VList notes)).

Definition get_note (note_id : Z) : M value :=
  with_session (note ← _get_note_by_id_helper note_id; mret (VRef note)).

Definition get_note_old (note_id : Z) : M value :=
  with_session
    (result ← session_get note_id;
     match result with
     | None =>
         raise (HTTPError (mkHTTPException 404 "Note with id: {note_id} not found"))
     | Some r => mret (VRef r)
     end).

Definition add_new_note (new_note : ref) : M value :=
  with_session
    (session_add new_note;;
     session_flush;;
     session_refresh new_note;;
     session_commit;;
     n ← getattr new_note;
     mret (VStr ("New note " +:+ title n +:+ " with id " +:+ str_option str_int (id n)
                 +:+ " created at " +:+ str_option str_datetime (date_created n)))).

Definition update_note (note_id : Z) (updated_note_data : NoteIn) : M value :=
  note ← with_session
           (note ← _get_note_by_id_helper note_id;
            setattr note attr_title (NoteIn_title updated_note_data);;
            setattr note attr_content (NoteIn_content updated_note_data);;
            session_commit;;
            mret note);
  n ← getattr note;
  mret (VStr ("Note " +:+ title n +:+ " updated")).

Definition delete_note (note_id : Z) : M value :=
  note ← with_session
           (note ← _get_note_by_id_helper note_id;
            session_delete note;;
            session_commit;;
            mret note);
  n ← getattr note;
  mret (VStr ("Note " +:+ title n +:+ " with id " +:+ str_option str_int (id n)
              +:+ " removed")).

End CrudOld.

(** ** routers/notes_router.py *)

Definition create_note (request : NoteIn) : M (gmap string value) :=
  new_note ← Note_new (NoteIn_title request) (NoteIn_content request);
  success_message ← Crud.add_new_note new_note;
  mret {[ "message" := success_message ]}.

(** [Depends(establish_session_to_db)]: every request runs its path
    operation in a session of its own. *)
Definition establish_session_to_db {A} (path_operation : M A) : M A :=
  with_session path_operation.

(** The path operations as a request runs them: the handler's body under
    the injected session. *)
Module notes_router.

Definition get_all_notes : M value :=
  establish_session_to_db Crud.get_all_notes.

Definition create_note (request : NoteIn) : M (gmap string value) :=
  establish_session_to_db (create_note request).

Definition get_note_by_id (note_id : Z) : M value :=
  establish_session_to_db (Crud.get_note note_id).

Definition update_note (note_id : Z) (new_note_data : NoteIn)
    : M (gmap string value) :=
  establish_session_to_db
    (success_message ← Crud.update_note note_id new_note_data;
     mret {[ "message" := success_message ]}).

Definition delete_note (note_id : Z) : M (gmap string value) :=
  establish_session_to_db
    (message ← Crud.delete_note note_id;
     mret {[ "message" := message ]}).

End notes_router.

(** ** Sessions between two CRUD calls *)

(** The persistent objects agree with the rows the transaction sees. *)
Definition coherent (s : Session) : Prop :=
  ∀ i r, identity_map s !! i = Some r →
    ∃ row, find_row i (txn s) = Some row ∧ heap s !! r = Some (note_of_row row).

(** What holds of a session whenever a CRUD method is entered: nothing is
    pending, the transaction sees the committed table, keys are unique, and
    the loaded objects are up to date. *)
Record clean (s : Session) : Prop := mk_clean {
  clean_new : new s = [];
  clean_dirty : dirty s = [];
  clean_deleted : deleted s = [];
  clean_txn : txn s = db s;
  clean_key : NoDup (row_id <$> db s);
  clean_coherent : coherent s }.

(** Python's [sub in s] on strings. *)
Fixpoint is_prefix (p s : string) : bool :=
  match p, s with
  | EmptyString, _ => true
  | String a p', String b s' => bool_decide (a = b) && is_prefix p' s'
  | String _ _, EmptyString => false
  end.
Fixpoint contains (sub s : string) : bool :=
  is_prefix sub s ||
  match s with
  | EmptyString => false
  | String _ s' => contains sub s'
  end.

Definition is_digit (c : ascii) : bool :=
  bool_decide (c ∈ String.list_ascii_of_string "0123456789").

(** ** Observing a session *)

(** The object a returned reference stands for, as the caller reads it. *)
Definition deref (v : result value) (s : Session) : option Note :=
  match v with
  | Ok (VRef r) => heap s !! r
  | _ => None
  end.

(** One [get_note] per element of [clocks], each at a later time of the
    store's clock, and what each of them yields. *)
Fixpoint reads (note_id : Z) (clocks : list datetime) (s : Session)
    : list (option Note) :=
  match clocks with
  | [] => []
  | d :: clocks' =>
      let '(v, s') := Crud.get_note note_id (set_clock d s) in
      deref v s' :: reads note_id clocks' s'
  end.

(** The error every lookup of a missing [note_id] ends in. *)
Definition NotFound (note_id : Z) : exn :=
  HTTPError (mkHTTPException 404 (not_found_detail note_id)).

(** "The call returns the Note": a reference to an object whose generated
    fields are filled in. *)
Definition returns_populated_note (out : result value * Session) : Prop :=
  ∃ r n, out.1 = Ok (VRef r) ∧ heap out.2 !! r = Some n
         ∧ is_Some (id n) ∧ is_Some (date_created n).

(** The requests [POST /notes/], one after the other; each comes with the
    reading of the store's clock when it is served. *)
Fixpoint post_all (requests : list (datetime * NoteIn)) (s : Session) : Session :=
  match requests with
  | [] => s
  | (now, request) :: requests' =>
      post_all requests' (notes_router.create_note request (set_clock now s)).2
  end.

(** The rows those requests insert, the first of them under key [first]. *)
Fixpoint posted_rows (first : Z) (requests : list (datetime * NoteIn)) : list Row :=
  match requests with
  | [] => []
  | (now, request) :: requests' =>
      mkRow first (NoteIn_title request) (NoteIn_content request) now
      :: posted_rows (first + 1) requests'
  end.

(** ** Sample data *)

Definition may_17 : datetime := mk_datetime 2024 5 17 9 3 0 0.
Definition june_1 : datetime := mk_datetime 2024 6 1 18 30 15 0.
Definition groceries : Row := mkRow 1 "groceries" "milk, eggs" may_17.
Definition chores : Row := mkRow 4 "chores" "laundry" may_17.
Definition empty_session : Session := open_session [] may_17.
Definition two_notes_session : Session := open_session [chores; groceries] june_1.

(** * Properties *)

(** ** The table *)

Section table.
Implicit Types (rows : list Row) (row : Row) (i : Z).

Lemma find_row_cons i row rows :
  find_row i (row :: rows) =
    if decide (row_id row = i) then Some row else find_row i rows.
Proof.
  unfold find_row; simpl. case_decide; [done|].
  by destruct (list_find _ rows) as [[? ?]|].
Qed.

Lemma find_row_Some i rows row :
  find_row i rows = Some row → row ∈ rows ∧ row_id row = i.
Proof.
  induction rows as [|x rows IH]; [done|].
  rewrite find_row_cons. case_decide.
  - intros [= ->]. split; [apply elem_of_cons; auto|done].
  - intros [? ?]%IH. split; [apply elem_of_cons; auto|done].
Qed.

Lemma find_row_None i rows :
  find_row i rows = None ↔ i ∉ row_id <$> rows.
Proof.
  induction rows as [|x rows IH]; [set_solver|].
  rewrite find_row_cons, fmap_cons, not_elem_of_cons.
  case_decide; naive_solver.
Qed.

Lemma find_row_elem_of rows row :
  NoDup (row_id <$> rows) → row ∈ rows → find_row (row_id row) rows = Some row.
Proof.
  induction rows as [|x rows IH]; intros Hnd Hin; [by apply elem_of_nil in Hin|].
  rewrite fmap_cons in Hnd. apply NoDup_cons in Hnd as [Hx Hnd].
  rewrite find_row_cons.
  apply elem_of_cons in Hin as [->|Hin]; [by rewrite decide_True|].
  rewrite decide_False; [by apply IH|].
  intros Heq. apply Hx. rewrite Heq. by apply list_elem_of_fmap_2.
Qed.

Lemma find_row_app_fresh i rows row :
  i ∉ row_id <$> rows →
  find_row i (rows ++ [row]) = if decide (row_id row = i) then Some row else None.
Proof.
  induction rows as [|x rows IH]; intros H; simpl.
  - by rewrite find_row_cons.
  - rewrite fmap_cons, not_elem_of_cons in H. destruct H as [? H].
    rewrite find_row_cons, decide_False by done. by apply IH.
Qed.

Lemma find_row_app_l i rows row row' :
  find_row i rows = Some row → find_row i (rows ++ [row']) = Some row.
Proof.
  induction rows as [|x rows IH]; simpl; [done|].
  rewrite !find_row_cons. case_decide; auto.
Qed.

Lemma max_id_spec rows :
  match max_id rows with
  | Some m => m ∈ row_id <$> rows ∧ ∀ row, row ∈ rows → row_id row ≤ m
  | None => rows = []
  end.
Proof.
  induction rows as [|x rows IH]; simpl; [done|].
  destruct (max_id rows) as [m|]; simpl.
  - destruct IH as [Hin Hle]. split.
    + destruct (Z.max_spec (row_id x) m) as [[_ ->]|[_ ->]]; set_solver.
    + intros row [->|Hr]%elem_of_cons; [lia|]. specialize (Hle _ Hr). lia.
  - subst. split; [set_solver|]. intros row [->|Hr]%elem_of_cons; [lia|set_solver].
Qed.

Lemma fresh_id_fresh rows : fresh_id rows ∉ row_id <$> rows.
Proof.
  unfold fresh_id. pose proof (max_id_spec rows) as H.
  destruct (max_id rows) as [m|]; [|subst; set_solver].
  destruct H as [_ Hle]. intros (row & Heq & Hin)%list_elem_of_fmap.
  specialize (Hle _ Hin). lia.
Qed.

Lemma update_row_ids i a v rows : row_id <$> update_row i a v rows = row_id <$> rows.
Proof.
  unfold update_row. rewrite <-list_fmap_compose. apply list_fmap_ext.
  intros k row _; simpl. case_decide; by destruct a.
Qed.

Lemma find_row_update i j a v rows :
  find_row j (update_row i a v rows) =
    (λ row, if decide (row_id row = i) then set_column a v row else row)
      <$> find_row j rows.
Proof.
  induction rows as [|x rows IH]; [done|].
  unfold update_row in *. rewrite fmap_cons, !find_row_cons.
  assert (row_id (if decide (row_id x = i) then set_column a v x else x) = row_id x) as ->
    by (case_decide; by destruct a).
  destruct (decide (row_id x = j)); [done|apply IH].
Qed.

Lemma delete_row_ids i rows :
  ∀ j, j ∈ row_id <$> delete_row i rows ↔ j ≠ i ∧ j ∈ row_id <$> rows.
Proof.
  intros j. unfold delete_row. rewrite !list_elem_of_fmap.
  setoid_rewrite list_elem_of_filter. naive_solver.
Qed.

Lemma delete_row_NoDup i rows :
  NoDup (row_id <$> rows) → NoDup (row_id <$> delete_row i rows).
Proof.
  induction rows as [|x rows IH]; [done|].
  rewrite fmap_cons, NoDup_cons. intros [Hx Hnd].
  unfold delete_row in *. rewrite filter_cons. case_decide; [|by auto].
  rewrite fmap_cons. apply NoDup_cons. split; [|by auto].
  intros [_ ?]%delete_row_ids. done.
Qed.

Lemma find_row_delete i j rows :
  find_row j (delete_row i rows) = if decide (j = i) then None else find_row j rows.
Proof.
  case_decide as Hj.
  - subst. apply find_row_None. rewrite delete_row_ids. naive_solver.
  - induction rows as [|x rows IH]; [done|].
    unfold delete_row in *. rewrite filter_cons, find_row_cons.
    destruct (decide (row_id x ≠ i)) as [?|Hx].
    + rewrite find_row_cons. by rewrite IH.
    + apply dec_stable in Hx. rewrite decide_False by congruence. done.
Qed.

End table.

(** ** The session *)

Ltac run :=
  unfold Crud.get_all_notes, Crud.add_new_note, Crud.get_note, Crud.update_note,
    Crud.delete_note, Crud._get_note_by_id_helper, CrudOld._get_note_by_id_helper,
    session_select_all_ordered, session_get, session_add, session_flush,
    session_refresh, session_commit, session_delete, setattr, getattr, Note_new,
    log, modify, gets, stateful, raise, mbind, M_bind, bind, mret, M_ret, ret;
  simpl.

Ltac flat :=
  cbv beta zeta delta
    [set_heap set_identity_map set_new set_dirty set_deleted set_txn set_db
     set_clock set_calls];
  cbn [heap identity_map new dirty deleted txn db clock calls app foldl].
Tactic Notation "flat" "in" hyp(H) :=
  cbv beta zeta delta
    [set_heap set_identity_map set_new set_dirty set_deleted set_txn set_db
     set_clock set_calls] in H;
  cbn [heap identity_map new dirty deleted txn db clock calls app foldl] in H.

Global Instance note_of_row_inj : Inj (=) (=) note_of_row.
Proof. intros [] [] [=]. by subst. Qed.

Lemma update_dirty_heap s ra : heap (update_dirty s ra) = heap s.
Proof. unfold update_dirty. by destruct (id _). Qed.

(** Side conditions about one object of the heap. *)
Ltac side :=
  rewrite ?update_dirty_heap; flat;
  first
    [ done
    | reflexivity
    | apply list_lookup_insert_eq; rewrite ?length_insert; done
    | rewrite list_lookup_insert_ne by done; done ].

Section session.
Implicit Types (s : Session) (r : ref) (i : Z) (row : Row).

Lemma clean_set_calls s l : clean s → clean (set_calls l s).
Proof. intros []. by constructor. Qed.

Lemma clean_set_clock s d : clean s → clean (set_clock d s).
Proof. intros []. by constructor. Qed.

Lemma open_session_clean table now :
  NoDup (row_id <$> table) → clean (open_session table now).
Proof. intros ?. by constructor. Qed.

Lemma coherent_lt s i r : coherent s → identity_map s !! i = Some r → (r < length (heap s))%nat.
Proof. intros Hc (row & _ & Hr)%Hc. by eapply lookup_lt_Some. Qed.

Lemma coherent_id s i j r :
  coherent s → identity_map s !! i = Some r → identity_map s !! j = Some r → i = j.
Proof.
  intros Hc (row & [_ <-]%find_row_Some & Hr)%Hc (row' & [_ <-]%find_row_Some & Hr')%Hc.
  rewrite Hr in Hr'. by injection Hr'.
Qed.

(** Building the object for a row the session has not loaded yet. *)
Lemma clean_load s i row :
  clean s → identity_map s !! i = None → find_row i (txn s) = Some row →
  clean (set_heap (heap s ++ [note_of_row row])
           (set_identity_map (<[i := length (heap s)]> (identity_map s)) s)).
Proof.
  intros [] Hi Hrow. constructor; try done.
  intros j r; simpl. destruct (decide (i = j)) as [->|].
  - rewrite lookup_insert_eq. intros [= <-]. exists row. split; [done|].
    by rewrite list_lookup_middle.
  - rewrite lookup_insert_ne by done. intros (row' & ? & ?)%clean_coherent0.
    exists row'. split; [done|]. by apply lookup_app_l_Some.
Qed.

Lemma helper_found s i row :
  clean s → find_row i (db s) = Some row →
  ∃ r s', Crud._get_note_by_id_helper i s = (Ok r, s')
    ∧ clean s'
    ∧ identity_map s' !! i = Some r
    ∧ heap s' !! r = Some (note_of_row row)
    ∧ db s' = db s ∧ clock s' = clock s
    ∧ calls s' = calls s ++ [call_get i]
    ∧ (∀ r' o, heap s !! r' = Some o → heap s' !! r' = Some o).
Proof.
  intros Hs Hrow. run.
  destruct (identity_map s !! i) as [r|] eqn:Hi.
  - exists r, (set_calls (calls s ++ [call_get i]) s).
    destruct (clean_coherent _ Hs _ _ Hi) as (row' & Hrow' & Hr).
    rewrite (clean_txn _ Hs), Hrow in Hrow'. simplify_eq.
    split_and!; auto using clean_set_calls.
  - rewrite (clean_txn _ Hs), Hrow. eexists _, _. split; [done|].
    split.
    { apply (clean_load (set_calls _ s)); auto using clean_set_calls.
      simpl. by rewrite (clean_txn _ Hs). }
    simpl. rewrite lookup_insert_eq, list_lookup_middle by done.
    split_and!; auto. intros. by apply lookup_app_l_Some.
Qed.

Lemma helper_missing s i :
  clean s → find_row i (db s) = None →
  Crud._get_note_by_id_helper i s =
    (Raise (HTTPError (mkHTTPException 404 (not_found_detail i))),
     set_calls (calls s ++ [call_get i]) s).
Proof.
  intros Hs Hrow. run.
  destruct (identity_map s !! i) as [r|] eqn:Hi.
  - destruct (clean_coherent _ Hs _ _ Hi) as (row' & Hrow' & Hr).
    rewrite (clean_txn _ Hs) in Hrow'. congruence.
  - by rewrite (clean_txn _ Hs), Hrow.
Qed.

(** *** Sequencing *)

Lemma bind_Ok {A B} (m : M A) (k : A → M B) s a s' :
  m s = (Ok a, s') → (m ≫= k) s = k a s'.
Proof. unfold mbind, M_bind, bind. by intros ->. Qed.

Lemma bind_Raise {A B} (m : M A) (k : A → M B) s e s' :
  m s = (Raise e, s') → (m ≫= k) s = (Raise e, s').
Proof. unfold mbind, M_bind, bind. by intros ->. Qed.

(** *** The session methods, one by one *)

Lemma is_persistent_true s r o i :
  heap s !! r = Some o → id o = Some i → identity_map s !! i = Some r →
  is_persistent s r = true.
Proof.
  intros Hr Hid Hi. unfold is_persistent.
  rewrite (list_lookup_total_correct _ _ _ Hr), Hid. by apply bool_decide_eq_true.
Qed.

Lemma is_persistent_transient s r o :
  heap s !! r = Some o → id o = None → is_persistent s r = false.
Proof.
  intros Hr Hid. unfold is_persistent.
  by rewrite (list_lookup_total_correct _ _ _ Hr), Hid.
Qed.

Lemma getattr_Some s r o : heap s !! r = Some o → getattr r s = (Ok o, s).
Proof. intros Hr. unfold getattr, gets. by rewrite (list_lookup_total_correct _ _ _ Hr). Qed.

Lemma setattr_persistent s r a v o i :
  heap s !! r = Some o → id o = Some i → identity_map s !! i = Some r →
  setattr r a v s =
    (Ok tt, set_dirty (dirty s ++ [(r, a)])
              (set_heap (<[r := write_attr a v o]> (heap s)) s)).
Proof.
  intros Hr Hid Hi. unfold setattr, modify.
  by rewrite (is_persistent_true _ _ _ _ Hr Hid Hi), (list_lookup_total_correct _ _ _ Hr).
Qed.

Lemma session_add_transient s r o :
  heap s !! r = Some o → id o = None → new s = [] →
  session_add r s = (Ok tt, set_new [r] (set_calls (calls s ++ [call_add r]) s)).
Proof.
  intros Hr Hid Hn. run.
  rewrite (is_persistent_transient (set_calls _ s) r o Hr Hid), Hn.
  by rewrite bool_decide_eq_false_2 by apply not_elem_of_nil.
Qed.

Lemma session_delete_persistent s r o i :
  heap s !! r = Some o → id o = Some i → identity_map s !! i = Some r →
  session_delete r s =
    (Ok tt, set_deleted (deleted s ++ [r]) (set_calls (calls s ++ [call_delete r]) s)).
Proof.
  intros Hr Hid Hi. run.
  by rewrite (is_persistent_true (set_calls _ s) r o i Hr Hid Hi).
Qed.

Lemma insert_new_generated s r o :
  heap s !! r = Some o → id o = None →
  insert_new r s =
    inr (set_txn (txn s ++ [mkRow (fresh_id (txn s)) (title o) (content o)
                                  (default (clock s) (date_created o))])
        (set_heap (<[r := mkNote (Some (fresh_id (txn s))) (title o) (content o)
                                 (Some (default (clock s) (date_created o)))]>
                     (heap s))
        (set_identity_map (<[fresh_id (txn s) := r]> (identity_map s)) s))).
Proof.
  intros Hr Hid. unfold insert_new.
  rewrite (list_lookup_total_correct _ _ _ Hr), Hid. simpl.
  by rewrite decide_False by apply fresh_id_fresh.
Qed.

Lemma update_dirty_persistent s r a o i :
  heap s !! r = Some o → id o = Some i →
  update_dirty s (r, a) = set_txn (update_row i a (read_attr a o) (txn s)) s.
Proof.
  intros Hr Hid. unfold update_dirty. simpl.
  by rewrite (list_lookup_total_correct _ _ _ Hr), Hid.
Qed.

Lemma delete_marked_persistent s r o i :
  heap s !! r = Some o → id o = Some i →
  delete_marked s r =
    set_txn (delete_row i (txn s)) (set_identity_map (delete i (identity_map s)) s).
Proof.
  intros Hr Hid. unfold delete_marked.
  by rewrite (list_lookup_total_correct _ _ _ Hr), Hid.
Qed.

Lemma session_refresh_persistent s r o i row :
  heap s !! r = Some o → id o = Some i → identity_map s !! i = Some r →
  find_row i (txn s) = Some row →
  session_refresh r s =
    (Ok tt, set_heap (<[r := note_of_row row]> (heap s))
              (set_dirty (filter (λ ra, ra.1 ≠ r) (dirty s))
                (set_calls (calls s ++ [call_refresh r]) s))).
Proof.
  intros Hr Hid Hi Hrow. run.
  rewrite (is_persistent_true (set_calls _ s) r o i Hr Hid Hi).
  rewrite (list_lookup_total_correct _ _ _ Hr), Hid. simpl. by rewrite Hrow.
Qed.

Lemma flush_pending_no_new s :
  new s = [] →
  flush_pending s =
    (Ok tt, set_new [] (set_dirty [] (set_deleted []
              (foldl delete_marked (foldl update_dirty s (dirty s)) (deleted s))))).
Proof. intros Hn. unfold flush_pending. by rewrite Hn. Qed.

Lemma session_commit_no_new s s' :
  new s = [] →
  foldl delete_marked
    (foldl update_dirty (set_calls (calls s ++ [call_commit]) s) (dirty s))
    (deleted s) = s' →
  session_commit s =
    (Ok tt, set_db (txn s') (set_new [] (set_dirty [] (set_deleted [] s')))).
Proof.
  intros Hn <-. unfold session_commit.
  erewrite bind_Ok by reflexivity.
  erewrite bind_Ok by (by apply flush_pending_no_new).
  reflexivity.
Qed.

(** *** update_note *)

Lemma update_note_spec s i row upd :
  clean s → find_row i (db s) = Some row →
  ∃ r s', Crud.update_note i upd s
            = (Ok (VStr ("Note " +:+ NoteIn_title upd +:+ " updated")), s')
    ∧ clean s'
    ∧ identity_map s' !! i = Some r
    ∧ heap s' !! r = Some (mkNote (Some i) (NoteIn_title upd) (NoteIn_content upd)
                                  (Some (row_date_created row)))
    ∧ db s' = update_row i attr_content (NoteIn_content upd)
                (update_row i attr_title (NoteIn_title upd) (db s))
    ∧ calls s' = calls s ++ [call_get i; call_commit].
Proof.
  intros Hs Hrow.
  destruct (helper_found s i row Hs Hrow)
    as (r & s1 & Hrun & Hs1 & Hi & Hr & Hdb & _ & Hcalls & _).
  apply find_row_Some in Hrow as Hrow'. destruct Hrow' as [_ <-].
  destruct Hs1 as [Hn Hd Hdl Ht Hnd Hco].
  destruct s1 as [h im n d dl t b c cl]; simpl in *; subst.
  assert (r < length h)%nat as Hlt by (by eapply lookup_lt_Some).
  unfold Crud.update_note.
  erewrite bind_Ok by exact Hrun.
  erewrite bind_Ok by (by eapply setattr_persistent). flat.
  erewrite bind_Ok; [|eapply setattr_persistent; flat;
                       [by apply list_lookup_insert_eq|done..]]. flat.
  erewrite bind_Ok.
  2:{ apply session_commit_no_new; [done|]. flat.
      erewrite !update_dirty_persistent by side. flat. reflexivity. }
  flat. cbn [write_attr read_attr note_of_row id title content date_created].
  rewrite list_insert_insert_eq.
  erewrite bind_Ok by (apply getattr_Some; side).
  eexists r, _. split; [reflexivity|]. flat.
  split_and!; [|done|side|done|by rewrite <-app_assoc].
  constructor; flat; try done.
  { by rewrite !update_row_ids. }
  intros j r'; flat. intros Hj.
  destruct (Hco j r' Hj) as (row' & Hrow' & Hr'); flat in Hrow'; flat in Hr'.
  rewrite !find_row_update, Hrow'. cbn [fmap option_fmap option_map].
  eexists; split; [reflexivity|].
  destruct (decide (r' = r)) as [->|Hne].
  - assert (row' = row) as -> by (apply (inj note_of_row); congruence).
    rewrite list_lookup_insert_eq by done.
    rewrite (decide_True (P := row_id row = row_id row)) by done. cbn.
    by rewrite decide_True by done.
  - rewrite list_lookup_insert_ne by done.
    destruct (decide (row_id row' = row_id row)) as [He|].
    2:{ rewrite decide_False by done. exact Hr'. }
    exfalso. apply Hne. apply find_row_Some in Hrow' as [_ <-].
    rewrite <-He in Hi. congruence.
Qed.

(** *** delete_note *)

Lemma delete_note_spec s i row :
  clean s → find_row i (db s) = Some row →
  ∃ r s', Crud.delete_note i s
            = (Ok (VStr ("Note " +:+ row_title row +:+ " with id " +:+ str_int i
                         +:+ " removed")), s')
    ∧ clean s'
    ∧ identity_map s' !! i = None
    ∧ db s' = delete_row i (db s)
    ∧ clock s' = clock s
    ∧ calls s' = calls s ++ [call_get i; call_delete r; call_commit].
Proof.
  intros Hs Hrow.
  destruct (helper_found s i row Hs Hrow)
    as (r & s1 & Hrun & Hs1 & Hi & Hr & Hdb & Hclock & Hcalls & _).
  apply find_row_Some in Hrow as Hrow'. destruct Hrow' as [_ <-].
  destruct Hs1 as [Hn Hd Hdl Ht Hnd Hco].
  destruct s1 as [h im n d dl t b c cl]; simpl in *; subst.
  unfold Crud.delete_note.
  erewrite bind_Ok by exact Hrun.
  erewrite bind_Ok by (by eapply session_delete_persistent). flat.
  erewrite bind_Ok.
  2:{ apply session_commit_no_new; [done|]. flat.
      erewrite delete_marked_persistent by side. flat. reflexivity. }
  flat.
  erewrite bind_Ok by (apply getattr_Some; side).
  eexists r, _. split; [reflexivity|]. flat.
  split_and!; [|by apply lookup_delete_eq|done|done|by rewrite <-!app_assoc].
  constructor; flat; try done.
  { by apply delete_row_NoDup. }
  intros j r'; flat. rewrite lookup_delete. case_decide as Hj; [done|].
  intros (row' & Hrow' & Hr')%Hco; flat in Hrow'; flat in Hr'.
  exists row'. split; [|done].
  rewrite find_row_delete. by rewrite decide_False by congruence.
Qed.

(** *** add_new_note *)

Lemma flush_pending_insert_one s r o :
  new s = [r] → dirty s = [] → deleted s = [] →
  heap s !! r = Some o → id o = None →
  flush_pending s =
    (Ok tt,
     set_new [] (set_dirty [] (set_deleted []
       (set_txn (txn s ++ [mkRow (fresh_id (txn s)) (title o) (content o)
                                 (default (clock s) (date_created o))])
       (set_heap (<[r := mkNote (Some (fresh_id (txn s))) (title o) (content o)
                                (Some (default (clock s) (date_created o)))]>
                    (heap s))
       (set_identity_map (<[fresh_id (txn s) := r]> (identity_map s)) s)))))).
Proof.
  intros Hn Hd Hdl Hr Hid. unfold flush_pending. rewrite Hn, Hd, Hdl.
  cbn [insert_all]. by rewrite (insert_new_generated _ _ _ Hr Hid).
Qed.

Lemma add_new_note_steps s r o :
  clean s → heap s !! r = Some o → id o = None →
  let i := fresh_id (db s) in
  let row := mkRow i (title o) (content o) (default (clock s) (date_created o)) in
  ∃ s1 s2 s3 s4,
    session_add r s = (Ok tt, s1)
    ∧ session_flush s1 = (Ok tt, s2)
    ∧ session_refresh r s2 = (Ok tt, s3)
    ∧ session_commit s3 = (Ok tt, s4)
    ∧ Crud.add_new_note r s =
        (Ok (VStr ("New note " +:+ title o +:+ " with id " +:+ str_int i
                   +:+ " created at " +:+ str_datetime (row_date_created row))), s4)
    ∧ (new s1 = [r] ∧ heap s1 = heap s ∧ txn s1 = db s ∧ db s1 = db s)
    ∧ (txn s2 = db s ++ [row] ∧ db s2 = db s
       ∧ heap s2 !! r = Some (note_of_row row))
    ∧ (heap s3 !! r = Some (note_of_row row) ∧ txn s3 = db s ++ [row] ∧ db s3 = db s)
    ∧ (db s4 = db s ++ [row] ∧ heap s4 !! r = Some (note_of_row row)
       ∧ identity_map s4 !! i = Some r ∧ clock s4 = clock s)
    ∧ calls s4 = calls s ++ [call_add r; call_flush; call_refresh r; call_commit]
    ∧ clean s4.
Proof.
  intros [Hn Hd Hdl Ht Hnd Hco] Hr Hid i row.
  assert (r < length (heap s))%nat as Hlt by (by eapply lookup_lt_Some).
  destruct s as [h im n d dl t b c cl]; simpl in *; subst.
  set (o2 := note_of_row row).
  set (s1 := mkSession h im [r] [] [] b b c (cl ++ [call_add r])).
  set (s2 := mkSession (<[r := o2]> h) (<[i := r]> im) [] [] [] (b ++ [row]) b c
               ((cl ++ [call_add r]) ++ [call_flush])).
  set (s3 := mkSession (<[r := note_of_row row]> h) (<[i := r]> im) [] [] []
               (b ++ [row]) b c
               (((cl ++ [call_add r]) ++ [call_flush]) ++ [call_refresh r])).
  set (s4 := mkSession (<[r := note_of_row row]> h) (<[i := r]> im) [] [] []
               (b ++ [row]) (b ++ [row]) c
               ((((cl ++ [call_add r]) ++ [call_flush]) ++ [call_refresh r])
                ++ [call_commit])).
  assert (i ∉ row_id <$> b) as Hfresh by apply fresh_id_fresh.
  assert (heap s2 !! r = Some o2) as Hr2 by (by apply list_lookup_insert_eq).
  assert (heap s4 !! r = Some (note_of_row row)) as Hr4
    by (by apply list_lookup_insert_eq).
  assert (Hadd : session_add r (mkSession h im [] [] [] b b c cl) = (Ok tt, s1)).
  { erewrite session_add_transient; [reflexivity|exact Hr|exact Hid|reflexivity]. }
  assert (Hflush : session_flush s1 = (Ok tt, s2)).
  { unfold session_flush. erewrite bind_Ok by reflexivity.
    erewrite flush_pending_insert_one; [reflexivity|reflexivity..|exact Hr|exact Hid]. }
  assert (Hrefresh : session_refresh r s2 = (Ok tt, s3)).
  { erewrite (session_refresh_persistent _ r o2 i row);
      [|exact Hr2|reflexivity|apply lookup_insert_eq|].
    - unfold s3, s2. cbn [heap dirty calls set_calls set_dirty set_heap filter].
      by rewrite list_insert_insert_eq.
    - cbn [txn s2]. rewrite find_row_app_fresh by done. by rewrite decide_True. }
  assert (Hcommit : session_commit s3 = (Ok tt, s4)).
  { erewrite session_commit_no_new; [|reflexivity..]. reflexivity. }
  exists s1, s2, s3, s4.
  split_and!; try done.
  - unfold Crud.add_new_note.
    erewrite bind_Ok by exact Hadd. erewrite bind_Ok by exact Hflush.
    erewrite bind_Ok by exact Hrefresh. erewrite bind_Ok by exact Hcommit.
    erewrite bind_Ok by (apply getattr_Some; exact Hr4).
    reflexivity.
  - apply lookup_insert_eq.
  - cbn [calls s4]. by rewrite <-!app_assoc.
  - constructor; try done.
    + cbn [db s4]. rewrite fmap_app. apply NoDup_app.
      split_and!; [done| |apply NoDup_singleton].
      intros j Hj ->%list_elem_of_singleton. done.
    + intros j r'. cbn [identity_map txn heap s4].
      destruct (decide (i = j)) as [<-|Hij].
      * rewrite lookup_insert_eq. intros [= <-]. exists row.
        rewrite find_row_app_fresh by done. rewrite decide_True by done.
        split; [done|]. by apply list_lookup_insert_eq.
      * rewrite lookup_insert_ne by done. intros Hj.
        destruct (Hco j r' Hj) as (row' & Hrow' & Hr').
        cbn [txn heap] in Hrow', Hr'.
        exists row'. split; [by apply find_row_app_l|].
        rewrite list_lookup_insert_ne; [done|].
        intros <-. pose proof (eq_trans (eq_sym Hr) Hr') as [= ->]. done.
Qed.



Lemma clean_alloc s o : clean s → clean (set_heap (heap s ++ [o]) s).
Proof.
  intros []. constructor; try done.
  intros i r (row & ? & ?)%clean_coherent0. exists row.
  split; [done|]. by apply lookup_app_l_Some.
Qed.

Lemma create_note_spec s request :
  clean s →
  let r := length (heap s) in
  let row := mkRow (fresh_id (db s)) (NoteIn_title request) (NoteIn_content request)
                   (clock s) in
  ∃ s',
    create_note request s =
      (Ok {[ "message" :=
               VStr ("New note " +:+ NoteIn_title request +:+ " with id "
                     +:+ str_int (row_id row) +:+ " created at "
                     +:+ str_datetime (clock s)) ]}, s')
    ∧ clean s'
    ∧ db s' = db s ++ [row]
    ∧ heap s' !! r = Some (note_of_row row)
    ∧ identity_map s' !! row_id row = Some r
    ∧ clock s' = clock s
    ∧ calls s' = calls s ++ [call_add r; call_flush; call_refresh r; call_commit].
Proof.
  intros Hs r row.
  pose (o := mkNote None (NoteIn_title request) (NoteIn_content request) None).
  destruct (add_new_note_steps (set_heap (heap s ++ [o]) s) r o)
    as (s1 & s2 & s3 & s4 & _ & _ & _ & _ & Hrun & _ & _ & _ & (?&?&?&?) & ? & ?).
  { by apply clean_alloc. }
  { flat. by apply list_lookup_middle. }
  { done. }
  exists s4. split_and!; try done.
  unfold create_note.
  erewrite bind_Ok by reflexivity. erewrite bind_Ok by exact Hrun.
  reflexivity.
Qed.

(** *** get_all_notes *)

Lemma load_rows_spec rows : ∀ s,
  clean s →
  (∀ row, row ∈ rows → find_row (row_id row) (txn s) = Some row) →
  ∃ rs s', load_rows rows s = (rs, s')
    ∧ clean s'
    ∧ txn s' = txn s ∧ db s' = db s ∧ clock s' = clock s ∧ calls s' = calls s
    ∧ Forall2 (λ r row, heap s' !! r = Some (note_of_row row)) rs rows
    ∧ (∀ r o, heap s !! r = Some o → heap s' !! r = Some o).
Proof.
  induction rows as [|row rows IH]; intros s Hs Hrows.
  { exists [], s. by split_and!. }
  assert (find_row (row_id row) (txn s) = Some row) as Hrow
    by (apply Hrows, elem_of_cons; auto).
  assert (∃ r s1, load_row row s = (r, s1) ∧ clean s1
            ∧ txn s1 = txn s ∧ db s1 = db s ∧ clock s1 = clock s ∧ calls s1 = calls s
            ∧ heap s1 !! r = Some (note_of_row row)
            ∧ (∀ r o, heap s !! r = Some o → heap s1 !! r = Some o))
    as (r & s1 & Hload & Hs1 & Ht & Hdb & Hc & Hcl & Hr & Hmono).
  { unfold load_row. destruct (identity_map s !! row_id row) as [r|] eqn:Hi.
    - exists r, s. destruct (clean_coherent _ Hs _ _ Hi) as (row' & Hrow' & Hr).
      rewrite Hrow in Hrow'. injection Hrow' as <-. by split_and!.
    - eexists _, _. split; [reflexivity|]. split; [by apply clean_load|].
      flat. split_and!; try done.
      + by apply list_lookup_middle.
      + intros. by apply lookup_app_l_Some. }
  destruct (IH s1 Hs1) as (rs & s2 & Hloads & Hs2 & Ht2 & Hdb2 & Hc2 & Hcl2 & Hrs & Hmono2).
  { intros row' Hin. rewrite Ht. apply Hrows, elem_of_cons; auto. }
  exists (r :: rs), s2. cbn [load_rows]. rewrite Hload, Hloads.
  split_and!; try congruence; auto.
Qed.

Lemma get_all_notes_spec s :
  clean s →
  ∃ rs s', Crud.get_all_notes s = (Ok (VList rs), s')
    ∧ clean s'
    ∧ db s' = db s
    ∧ Forall2 (λ r row, heap s' !! r = Some (note_of_row row)) rs (order_by_id (db s))
    ∧ calls s' = calls s ++ [call_execute].
Proof.
  intros Hs.
  destruct (load_rows_spec (order_by_id (db s)) (set_calls (calls s ++ [call_execute]) s))
    as (rs & s' & Hload & Hs' & _ & Hdb & _ & Hcl & Hrs & _).
  { by apply clean_set_calls. }
  { intros row Hin. flat. rewrite (clean_txn _ Hs).
    apply find_row_elem_of; [apply Hs|].
    unfold order_by_id in Hin. by rewrite merge_sort_Permutation in Hin. }
  exists rs, s'. split_and!; try done.
  unfold Crud.get_all_notes, session_select_all_ordered.
  erewrite bind_Ok; [reflexivity|].
  erewrite bind_Ok by reflexivity.
  unfold stateful.
  assert (txn (set_calls (calls s ++ [call_execute]) s) = db s) as ->
    by (flat; apply Hs).
  by rewrite Hload.
Qed.

End session.

(** ** Strings *)

Section strings.
Implicit Types (s p sub pre post : string) (c : ascii).

Lemma is_prefix_app sub post : is_prefix sub (sub +:+ post) = true.
Proof.
  induction sub as [|c sub IH]; [done|].
  change (String c sub +:+ post) with (String c (sub +:+ post)). cbn [is_prefix].
  by rewrite bool_decide_eq_true_2, IH.
Qed.

Lemma contains_here sub post : contains sub (sub +:+ post) = true.
Proof.
  pose proof (is_prefix_app sub post) as H.
  destruct (sub +:+ post); cbn [contains]; by rewrite H.
Qed.

Lemma contains_app sub pre post : contains sub (pre +:+ sub +:+ post) = true.
Proof.
  induction pre as [|c pre IH]; [exact (contains_here sub post)|].
  change (String c pre +:+ sub +:+ post) with (String c (pre +:+ sub +:+ post)).
  cbn [contains]. rewrite IH. apply orb_true_r.
Qed.

Lemma is_prefix_head c p s :
  is_prefix (String c p) s = true → c ∈ String.list_ascii_of_string s.
Proof.
  destruct s as [|c' s]; cbn; [done|].
  intros [->%bool_decide_eq_true _]%andb_prop. apply elem_of_cons; auto.
Qed.

(** A string occurs only where its first character does. *)
Lemma contains_head c p s :
  contains (String c p) s = true → c ∈ String.list_ascii_of_string s.
Proof.
  induction s as [|c' s IH].
  - cbn. done.
  - cbn [contains]. intros [H|H]%orb_prop.
    + by apply is_prefix_head in H.
    + cbn. apply elem_of_cons. auto.
Qed.

Lemma pretty_N_char_digit (x : N) : is_digit (pretty_N_char x) = true.
Proof. unfold pretty_N_char. by repeat case_match. Qed.

Lemma pretty_N_go_head (x : N) : ∀ s,
  (0 < x)%N → ∃ c rest, pretty_N_go x s = String c rest ∧ is_digit c = true.
Proof.
  induction (N.lt_wf_0 x) as [x _ IH]; intros s Hx.
  rewrite pretty_N_go_step by done.
  destruct (decide (x `div` 10 = 0)%N) as [->|Hdiv].
  - rewrite pretty_N_go_0. eauto using pretty_N_char_digit.
  - apply IH; [apply N.div_lt; lia|by apply N.neq_0_lt_0].
Qed.

(** [str(n)] starts with a digit or with the sign. *)
Lemma str_int_head (n : Z) :
  ∃ c rest, str_int n = String c rest ∧ (is_digit c = true ∨ c = "-"%char).
Proof.
  unfold str_int, pretty, pretty_Z. destruct n as [|x|x].
  - by exists "0"%char, ""; auto.
  - unfold pretty, pretty_positive, pretty, pretty_N.
    rewrite decide_False by done.
    destruct (pretty_N_go_head (N.pos x) "") as (c & rest & -> & ?); [lia|]. eauto.
  - eexists "-"%char, _. split; [reflexivity|auto].
Qed.

Lemma not_found_detail_contains_id (i : Z) :
  contains (str_int i) (not_found_detail i) = true.
Proof. unfold not_found_detail. apply contains_app. Qed.

Lemma literal_detail_lacks_id (i : Z) :
  contains (str_int i) "Note with id: {note_id} not found" = false.
Proof.
  destruct (str_int_head i) as (c & rest & -> & Hc).
  apply not_true_is_false. intros Hin%contains_head.
  destruct Hc as [Hc| ->].
  - apply bool_decide_eq_true in Hc.
    cbn in Hc, Hin. set_solver.
  - cbn in Hin. set_solver.
Qed.

End strings.

(** * The claims *)

Lemma missing_id_runs s i upd :
  clean s → i ∉ row_id <$> db s →
  let s' := set_calls (calls s ++ [call_get i]) s in
  Crud.get_note i s = (Raise (NotFound i), s')
  ∧ Crud.update_note i upd s = (Raise (NotFound i), s')
  ∧ Crud.delete_note i s = (Raise (NotFound i), s').
Proof.
  intros Hs Hi%find_row_None s'.
  pose proof (helper_missing s i Hs Hi) as Hrun. fold s' in Hrun.
  split_and!.
  - unfold Crud.get_note. by erewrite bind_Raise by exact Hrun.
  - unfold Crud.update_note. by erewrite bind_Raise by exact Hrun.
  - unfold Crud.delete_note. by erewrite bind_Raise by exact Hrun.
Qed.

Lemma update_row_found i rows row (t c : string) :
  find_row i rows = Some row →
  find_row i (update_row i attr_content c (update_row i attr_title t rows))
  = Some (mkRow i t c (row_date_created row)).
Proof.
  intros Hrow. apply find_row_Some in Hrow as Hrow'. destruct Hrow' as [_ Hid].
  rewrite !find_row_update, Hrow. cbn [fmap option_fmap option_map].
  rewrite (decide_True (P := row_id row = i)) by done. cbn [set_column row_id].
  rewrite decide_True by done. cbn. by rewrite Hid.
Qed.

Lemma get_note_found s i row :
  clean s → find_row i (db s) = Some row →
  ∃ r s', Crud.get_note i s = (Ok (VRef r), s')
    ∧ clean s' ∧ heap s' !! r = Some (note_of_row row) ∧ db s' = db s.
Proof.
  intros Hs Hrow.
  destruct (helper_found s i row Hs Hrow) as (r & s' & Hrun & ? & _ & ? & ? & _).
  exists r, s'. split_and!; try done.
  unfold Crud.get_note. by erewrite bind_Ok by exact Hrun.
Qed.

Lemma reads_spec i row clocks : ∀ s,
  clean s → find_row i (db s) = Some row →
  reads i clocks s = replicate (length clocks) (Some (note_of_row row)).
Proof.
  induction clocks as [|d clocks IH]; intros s Hs Hrow; [done|].
  destruct (get_note_found (set_clock d s) i row) as (r & s' & Hrun & Hs' & Hr & Hdb);
    [by apply clean_set_clock|done|].
  cbn [reads length replicate]. rewrite Hrun. cbn [deref]. rewrite Hr.
  f_equal. apply IH; [done|]. by rewrite Hdb.
Qed.

Lemma two_notes_session_clean : clean two_notes_session.
Proof.
  apply open_session_clean. apply (bool_decide_unpack _). by vm_compute.
Qed.

Lemma empty_session_clean : clean empty_session.
Proof. apply open_session_clean. constructor. Qed.

(** C1: creating a note with title [T] and content [C] succeeds and reports
    the generated id [i]; the note then read by that id has title [T],
    content [C], the id [Some i], and as creation timestamp the store's
    [now()] at the insert. Every later read, at whatever later time and in
    the same session or in a new one, yields that same note. *)
Theorem add_then_get_by_id (s : Session) (T C : string) :
  clean s →
  let i := fresh_id (db s) in
  let note := mkNote (Some i) T C (Some (clock s)) in
  ∃ s1,
    create_note (mkNoteIn T C) s =
      (Ok {[ "message" :=
               VStr ("New note " +:+ T +:+ " with id " +:+ str_int i
                     +:+ " created at " +:+ str_datetime (clock s)) ]}, s1)
    ∧ (∀ clocks, reads i clocks s1 = replicate (length clocks) (Some note))
    ∧ (∀ d clocks,
         reads i clocks (open_session (db s1) d)
         = replicate (length clocks) (Some note)).
Proof.
  intros Hs i note.
  destruct (create_note_spec s (mkNoteIn T C) Hs)
    as (s1 & Hrun & Hs1 & Hdb & _ & _ & _ & _).
  cbn [NoteIn_title NoteIn_content row_id] in *.
  set (row := mkRow i T C (clock s)) in *.
  assert (find_row i (db s1) = Some row) as Hrow.
  { rewrite Hdb, find_row_app_fresh by apply fresh_id_fresh.
    by rewrite decide_True. }
  exists s1. split_and!; [done|..].
  - intros clocks. by apply (reads_spec i row).
  - intros d clocks. apply (reads_spec i row); [|done].
    apply open_session_clean. rewrite Hdb. rewrite <-Hdb. apply Hs1.
Qed.

Lemma add_then_get_by_id_witness :
  clean two_notes_session
  ∧ ∃ s1,
      create_note (mkNoteIn "T" "C") two_notes_session =
        (Ok {[ "message" :=
                 VStr "New note T with id 5 created at 2024-06-01 18:30:15" ]}, s1)
      ∧ (∀ clocks, reads 5 clocks s1
           = replicate (length clocks) (Some (mkNote (Some 5) "T" "C" (Some june_1))))
      ∧ (∀ d clocks, reads 5 clocks (open_session (db s1) d)
           = replicate (length clocks) (Some (mkNote (Some 5) "T" "C" (Some june_1)))).
Proof.
  split; [exact two_notes_session_clean|].
  exact (add_then_get_by_id two_notes_session "T" "C" two_notes_session_clean).
Defined.

(** C2: when no row has the requested id, an id the store can take as a
    key, the shared lookup raises NotFound, and [get_note], [update_note]
    and [delete_note] each end in that same error, leaving the same session
    behind: only the record of the [get] call is new; the committed table,
    the table the transaction sees and the loaded objects are what they
    were. *)
Theorem missing_id_not_found (s : Session) (i : Z) (upd : NoteIn) :
  clean s → in_key_range i → i ∉ row_id <$> db s →
  let s' := set_calls (calls s ++ [call_get i]) s in
  Crud._get_note_by_id_helper i s = (Raise (NotFound i), s')
  ∧ Crud.get_note i s = (Raise (NotFound i), s')
  ∧ Crud.update_note i upd s = (Raise (NotFound i), s')
  ∧ Crud.delete_note i s = (Raise (NotFound i), s')
  ∧ db s' = db s ∧ txn s' = txn s ∧ heap s' = heap s
  ∧ identity_map s' = identity_map s.
Proof.
  intros Hs _ Hi%find_row_None s'.
  pose proof (helper_missing s i Hs Hi) as Hrun. fold s' in Hrun.
  split_and!; try done.
  - unfold Crud.get_note. by erewrite bind_Raise by exact Hrun.
  - unfold Crud.update_note. by erewrite bind_Raise by exact Hrun.
  - unfold Crud.delete_note. by erewrite bind_Raise by exact Hrun.
Qed.

Lemma missing_id_not_found_witness :
  clean two_notes_session ∧ in_key_range 99999
  ∧ (99999 ∉ row_id <$> db two_notes_session)
  ∧ Crud.delete_note 99999 two_notes_session
    = (Raise (NotFound 99999),
       set_calls (calls two_notes_session ++ [call_get 99999]) two_notes_session).
Proof.
  assert (in_key_range 99999) as Hrange
    by (apply (bool_decide_unpack _); by vm_compute).
  assert (99999 ∉ row_id <$> db two_notes_session) as Hi
    by (apply (bool_decide_unpack _); by vm_compute).
  split_and!; [exact two_notes_session_clean|exact Hrange|exact Hi|].
  exact (proj1 (proj2 (proj2 (proj2
    (missing_id_not_found two_notes_session 99999 (mkNoteIn "a" "b")
       two_notes_session_clean Hrange Hi))))).
Defined.

(** C3 as stated does not hold: on the empty table, adding the note built
    from title "T" and content "C" returns a string, and so does updating a
    note that exists; neither call returns a Note. *)
Lemma add_and_update_do_not_return_notes :
  ((Note_new "T" "C" ≫= Crud.add_new_note) empty_session).1
    = Ok (VStr "New note T with id 1 created at 2024-05-17 09:03:00")
  ∧ (Crud.update_note 1 (mkNoteIn "errands" "bank") two_notes_session).1
    = Ok (VStr "Note errands updated")
  ∧ ¬ returns_populated_note
        ((Note_new "T" "C" ≫= Crud.add_new_note) empty_session)
  ∧ ¬ returns_populated_note
        (Crud.update_note 1 (mkNoteIn "errands" "bank") two_notes_session).
Proof.
  split_and!; [reflexivity..| |];
    intros (r & n & Hv & _); vm_compute in Hv; discriminate.
Qed.

(** C3, amended: [add_new_note] fills the generated id and timestamp into the
    caller's object and returns the confirmation message spelling out that
    object's title, id and timestamp; [update_note] returns the confirmation
    message naming the new title, the updated object staying in the
    session. *)
Theorem add_and_update_return_messages (s : Session) :
  clean s →
  (∀ r o, heap s !! r = Some o → id o = None →
     ∃ s' n,
       Crud.add_new_note r s =
         (Ok (VStr ("New note " +:+ title n +:+ " with id "
                    +:+ str_option str_int (id n) +:+ " created at "
                    +:+ str_option str_datetime (date_created n))), s')
       ∧ heap s' !! r = Some n
       ∧ title n = title o ∧ content n = content o
       ∧ id n = Some (fresh_id (db s))
       ∧ date_created n = Some (default (clock s) (date_created o)))
  ∧ (∀ i row upd, find_row i (db s) = Some row →
     ∃ s' r,
       Crud.update_note i upd s =
         (Ok (VStr ("Note " +:+ NoteIn_title upd +:+ " updated")), s')
       ∧ identity_map s' !! i = Some r
       ∧ heap s' !! r = Some (mkNote (Some i) (NoteIn_title upd) (NoteIn_content upd)
                                     (Some (row_date_created row)))).
Proof.
  intros Hs. split.
  - intros r o Hr Hid.
    destruct (add_new_note_steps s r o Hs Hr Hid)
      as (_ & _ & _ & s4 & _ & _ & _ & _ & Hrun & _ & _ & _ & (_ & Hr4 & _) & _).
    exists s4, (note_of_row (mkRow (fresh_id (db s)) (title o) (content o)
                                  (default (clock s) (date_created o)))).
    split; [exact Hrun|]. split; [exact Hr4|]. done.
  - intros i row upd Hrow.
    destruct (update_note_spec s i row upd Hs Hrow) as (r & s' & Hrun & _ & ? & ? & _).
    by exists s', r.
Qed.

Lemma add_and_update_return_messages_witness :
  clean two_notes_session
  ∧ ∃ s' r,
      Crud.update_note 1 (mkNoteIn "errands" "bank") two_notes_session =
        (Ok (VStr "Note errands updated"), s')
      ∧ identity_map s' !! 1 = Some r
      ∧ heap s' !! r = Some (mkNote (Some 1) "errands" "bank" (Some may_17)).
Proof.
  split; [exact two_notes_session_clean|].
  exact (proj2 (add_and_update_return_messages two_notes_session two_notes_session_clean)
           1 groceries (mkNoteIn "errands" "bank") eq_refl).
Defined.

(** C4: [add_new_note] calls the session in the order add, flush, refresh,
    commit, and each step does its part: after [add] the object is pending
    and the table untouched; after [flush] the transaction holds the new row
    with its generated id and timestamp, nothing being committed, and the
    INSERT has returned both to the object; after [refresh], which reads the
    row again, the object still carries the row's values; only [commit]
    changes the committed table. *)
Theorem add_new_note_order (s : Session) (new_note : ref) (T C : string) :
  clean s → heap s !! new_note = Some (mkNote None T C None) →
  let row := mkRow (fresh_id (db s)) T C (clock s) in
  ∃ s1 s2 s3 s4 v,
    session_add new_note s = (Ok tt, s1)
    ∧ session_flush s1 = (Ok tt, s2)
    ∧ session_refresh new_note s2 = (Ok tt, s3)
    ∧ session_commit s3 = (Ok tt, s4)
    ∧ Crud.add_new_note new_note s = (Ok v, s4)
    ∧ calls s4 = calls s ++ [call_add new_note; call_flush;
                             call_refresh new_note; call_commit]
    ∧ (new s1 = [new_note] ∧ txn s1 = db s ∧ db s1 = db s
       ∧ heap s1 !! new_note = Some (mkNote None T C None))
    ∧ (txn s2 = db s ++ [row] ∧ db s2 = db s
       ∧ heap s2 !! new_note = Some (note_of_row row))
    ∧ (txn s3 = db s ++ [row] ∧ db s3 = db s
       ∧ heap s3 !! new_note = Some (note_of_row row))
    ∧ (db s4 = db s ++ [row] ∧ heap s4 !! new_note = Some (note_of_row row)).
Proof.
  intros Hs Hr row.
  destruct (add_new_note_steps s new_note _ Hs Hr eq_refl)
    as (s1 & s2 & s3 & s4 & Hadd & Hflush & Hrefresh & Hcommit & Hrun
        & (? & Hh1 & ? & ?) & (? & ? & ?) & (? & ? & ?) & (? & ? & _) & ? & _).
  exists s1, s2, s3, s4. eexists. split_and!; try done.
  by rewrite Hh1.
Qed.

Lemma add_new_note_order_witness :
  let s := (Note_new "T" "C" empty_session).2 in
  clean s ∧ heap s !! 0%nat = Some (mkNote None "T" "C" None)
  ∧ ∃ s1 s2 s3 s4 v,
      session_add 0%nat s = (Ok tt, s1)
      ∧ session_flush s1 = (Ok tt, s2)
      ∧ session_refresh 0%nat s2 = (Ok tt, s3)
      ∧ session_commit s3 = (Ok tt, s4)
      ∧ Crud.add_new_note 0%nat s = (Ok v, s4)
      ∧ calls s4 = [call_add 0%nat; call_flush; call_refresh 0%nat; call_commit]
      ∧ (new s1 = [0%nat] ∧ txn s1 = [] ∧ db s1 = []
         ∧ heap s1 !! 0%nat = Some (mkNote None "T" "C" None))
      ∧ (txn s2 = [mkRow 1 "T" "C" may_17] ∧ db s2 = []
         ∧ heap s2 !! 0%nat = Some (mkNote (Some 1) "T" "C" (Some may_17)))
      ∧ (txn s3 = [mkRow 1 "T" "C" may_17] ∧ db s3 = []
         ∧ heap s3 !! 0%nat = Some (mkNote (Some 1) "T" "C" (Some may_17)))
      ∧ (db s4 = [mkRow 1 "T" "C" may_17]
         ∧ heap s4 !! 0%nat = Some (mkNote (Some 1) "T" "C" (Some may_17))).
Proof.
  assert (clean (Note_new "T" "C" empty_session).2) as Hs
    by apply (clean_alloc empty_session), empty_session_clean.
  split_and!; [exact Hs|reflexivity|].
  exact (add_new_note_order _ 0%nat "T" "C" Hs eq_refl).
Defined.

Global Instance id_le_total : Total id_le.
Proof. intros a b. unfold id_le. lia. Qed.
Global Instance id_le_trans : Transitive id_le.
Proof. intros a b c. unfold id_le. lia. Qed.

Lemma order_by_id_sorted rows : StronglySorted id_le (order_by_id rows).
Proof. apply StronglySorted_merge_sort; apply _. Qed.

Lemma order_by_id_Permutation rows : order_by_id rows ≡ₚ rows.
Proof. apply merge_sort_Permutation. Qed.

(** C5: [get_all_notes] returns one object per row of the table and no
    other: the objects read as the rows of the table, put in ascending order
    of [id]; the table itself is left as it was. *)
Theorem get_all_notes_sorted (s : Session) :
  clean s →
  ∃ notes s' rows,
    Crud.get_all_notes s = (Ok (VList notes), s')
    ∧ (λ r, heap s' !! r) <$> notes = (λ row, Some (note_of_row row)) <$> rows
    ∧ rows ≡ₚ db s
    ∧ StronglySorted (λ a b, row_id a ≤ row_id b) rows
    ∧ db s' = db s.
Proof.
  intros Hs.
  destruct (get_all_notes_spec s Hs) as (rs & s' & Hrun & _ & Hdb & Hrs & _).
  exists rs, s', (order_by_id (db s)).
  split_and!; [done| |apply order_by_id_Permutation|apply order_by_id_sorted|done].
  clear Hrun. induction Hrs as [|r row rs rows Hr _ IH]; [done|].
  rewrite !fmap_cons. f_equal; [exact Hr|exact IH].
Qed.

Lemma get_all_notes_sorted_witness :
  clean two_notes_session
  ∧ ∃ notes s' rows,
      Crud.get_all_notes two_notes_session = (Ok (VList notes), s')
      ∧ (λ r, heap s' !! r) <$> notes = (λ row, Some (note_of_row row)) <$> rows
      ∧ rows ≡ₚ [chores; groceries]
      ∧ StronglySorted (λ a b, row_id a ≤ row_id b) rows
      ∧ db s' = [chores; groceries].
Proof.
  split; [exact two_notes_session_clean|].
  exact (get_all_notes_sorted two_notes_session two_notes_session_clean).
Defined.

(** C6: updating an existing note rewrites the title and the content of its
    row and of its object and nothing else: the row keeps its id and its
    creation timestamp, so does the object, every other row is the row it
    was, and the table has the same ids and timestamps in the same places. *)
Theorem update_note_frame (s : Session) (i : Z) (row : Row) (upd : NoteIn) :
  clean s → find_row i (db s) = Some row →
  ∃ v s' r,
    Crud.update_note i upd s = (Ok v, s')
    ∧ find_row i (db s') =
        Some (mkRow i (NoteIn_title upd) (NoteIn_content upd) (row_date_created row))
    ∧ identity_map s' !! i = Some r
    ∧ heap s' !! r =
        Some (mkNote (Some i) (NoteIn_title upd) (NoteIn_content upd)
                     (Some (row_date_created row)))
    ∧ (∀ j, j ≠ i → find_row j (db s') = find_row j (db s))
    ∧ row_id <$> db s' = row_id <$> db s
    ∧ row_date_created <$> db s' = row_date_created <$> db s.
Proof.
  intros Hs Hrow.
  destruct (update_note_spec s i row upd Hs Hrow)
    as (r & s' & Hrun & _ & Hi & Hr & Hdb & _).
  apply find_row_Some in Hrow as Hrow'. destruct Hrow' as [_ Hid].
  eexists _, s', r. split_and!; [exact Hrun| |done|done|..].
  - rewrite Hdb, !find_row_update, Hrow. cbn [fmap option_fmap option_map].
    rewrite (decide_True (P := row_id row = i)) by done. cbn [set_column row_id].
    rewrite decide_True by done. cbn. by rewrite Hid.
  - intros j Hj. rewrite Hdb, !find_row_update.
    destruct (find_row j (db s)) as [row'|] eqn:Hrow'; [|done].
    apply find_row_Some in Hrow' as [_ Hid'].
    cbn [fmap option_fmap option_map].
    rewrite (decide_False (P := row_id row' = i)) by congruence.
    by rewrite decide_False by congruence.
  - by rewrite Hdb, !update_row_ids.
  - rewrite Hdb. unfold update_row. rewrite <-!list_fmap_compose.
    apply list_fmap_ext. intros k x _. cbn.
    repeat case_decide; by destruct x.
Qed.

Lemma update_note_frame_witness :
  clean two_notes_session ∧ find_row 1 (db two_notes_session) = Some groceries
  ∧ ∃ v s' r,
      Crud.update_note 1 (mkNoteIn "errands" "bank") two_notes_session = (Ok v, s')
      ∧ find_row 1 (db s') = Some (mkRow 1 "errands" "bank" may_17)
      ∧ identity_map s' !! 1 = Some r
      ∧ heap s' !! r = Some (mkNote (Some 1) "errands" "bank" (Some may_17))
      ∧ (∀ j, j ≠ 1 → find_row j (db s') = find_row j [chores; groceries])
      ∧ row_id <$> db s' = [4; 1]
      ∧ row_date_created <$> db s' = [may_17; may_17].
Proof.
  split_and!; [exact two_notes_session_clean|reflexivity|].
  exact (update_note_frame two_notes_session 1 groceries (mkNoteIn "errands" "bank")
           two_notes_session_clean eq_refl).
Defined.

(** C7: deleting an existing note succeeds once. Afterwards no row has its
    id, reading it by id raises NotFound, no object returned by
    [get_all_notes] carries its id, and deleting it a second time raises
    NotFound and leaves the table as the first delete left it. *)
Theorem delete_note_then_gone (s : Session) (i : Z) (row : Row) :
  clean s → find_row i (db s) = Some row →
  ∃ v s1,
    Crud.delete_note i s = (Ok v, s1)
    ∧ db s1 = delete_row i (db s)
    ∧ i ∉ row_id <$> db s1
    ∧ (Crud.get_note i s1).1 = Raise (NotFound i)
    ∧ (∃ notes s2,
         Crud.get_all_notes s1 = (Ok (VList notes), s2)
         ∧ ∀ r n, r ∈ notes → heap s2 !! r = Some n → id n ≠ Some i)
    ∧ (Crud.delete_note i s1).1 = Raise (NotFound i)
    ∧ db (Crud.delete_note i s1).2 = db s1.
Proof.
  intros Hs Hrow.
  destruct (delete_note_spec s i row Hs Hrow) as (r & s1 & Hrun & Hs1 & _ & Hdb & _).
  assert (i ∉ row_id <$> db s1) as Hgone.
  { rewrite Hdb, delete_row_ids. naive_solver. }
  destruct (missing_id_runs s1 i (mkNoteIn "" "") Hs1 Hgone) as (Hget & _ & Hdel).
  eexists _, s1. split_and!; [exact Hrun|done|done|by rewrite Hget| |by rewrite Hdel..].
  destruct (get_all_notes_spec s1 Hs1) as (notes & s2 & Hlist & _ & _ & Hnotes & _).
  exists notes, s2. split; [done|].
  intros r' n [k Hk]%list_elem_of_lookup Hn.
  destruct (Forall2_lookup_l _ _ _ _ _ Hnotes Hk) as (row' & Hrow' & Hr').
  pose proof (eq_trans (eq_sym Hn) Hr') as [= ->]. cbn. intros [= Hid].
  apply Hgone. rewrite <-Hid. apply list_elem_of_fmap_2.
  rewrite <-(order_by_id_Permutation (db s1)). by eapply list_elem_of_lookup_2.
Qed.

Lemma delete_note_then_gone_witness :
  clean two_notes_session ∧ find_row 4 (db two_notes_session) = Some chores
  ∧ ∃ v s1,
      Crud.delete_note 4 two_notes_session = (Ok v, s1)
      ∧ db s1 = delete_row 4 [chores; groceries]
      ∧ (4 ∉ row_id <$> db s1)
      ∧ (Crud.get_note 4 s1).1 = Raise (NotFound 4)
      ∧ (∃ notes s2,
           Crud.get_all_notes s1 = (Ok (VList notes), s2)
           ∧ ∀ r n, r ∈ notes → heap s2 !! r = Some n → id n ≠ Some 4)
      ∧ (Crud.delete_note 4 s1).1 = Raise (NotFound 4)
      ∧ db (Crud.delete_note 4 s1).2 = db s1.
Proof.
  split_and!; [exact two_notes_session_clean|reflexivity|].
  exact (delete_note_then_gone two_notes_session 4 chores
           two_notes_session_clean eq_refl).
Defined.

(** *** Where an exception of a CRUD method can come from *)

Lemma bind_inv_Raise {A B} (m : M A) (k : A → M B) s e s' :
  (m ≫= k) s = (Raise e, s') →
  m s = (Raise e, s') ∨ ∃ a s1, m s = (Ok a, s1) ∧ k a s1 = (Raise e, s').
Proof.
  unfold mbind, M_bind, bind. destruct (m s) as [[a|e'] s1]; cbn; intros H.
  - right. by exists a, s1.
  - injection H as -> ->. by left.
Qed.

Lemma helper_raises s i e s' :
  Crud._get_note_by_id_helper i s = (Raise e, s') → e = NotFound i.
Proof.
  run. destruct (identity_map s !! i); [done|].
  destruct (find_row i (txn s)); [done|]. by intros [= <- _].
Qed.

Lemma insert_all_raises rs : ∀ s e, insert_all rs s = inl e → e = IntegrityError.
Proof.
  induction rs as [|r rs IH]; intros s e; cbn [insert_all]; [done|].
  destruct (insert_new r s) as [e'|s1] eqn:Hins; [|by apply IH].
  intros [= <-]. unfold insert_new in Hins. by case_decide; simplify_eq.
Qed.

Lemma session_commit_raises s e s' :
  session_commit s = (Raise e, s') → e = IntegrityError.
Proof.
  unfold session_commit.
  intros [[=]|(_ & s1 & _ & [Hflush|(_ & s2 & _ & [=])]%bind_inv_Raise)]%bind_inv_Raise.
  unfold flush_pending in Hflush.
  destruct (insert_all (new s1) s1) as [e'|] eqn:Hins; [|done].
  injection Hflush as <- _. by eapply insert_all_raises.
Qed.

Lemma session_delete_raises r s e s' :
  session_delete r s = (Raise e, s') → e = InvalidRequestError.
Proof.
  unfold session_delete. intros [[=]|(_ & s1 & _ & H)]%bind_inv_Raise.
  unfold stateful in H. by repeat case_match; simplify_eq.
Qed.

(** C8: whichever of [get_note], [update_note] and [delete_note] ends in an
    HTTP error, in whatever state the session is, the error has status 404
    and its detail contains the decimal spelling of the requested id. *)
Theorem not_found_is_404_with_id
    (s s' : Session) (i : Z) (upd : NoteIn) (e : HTTPException) :
  Crud.get_note i s = (Raise (HTTPError e), s')
  ∨ Crud.update_note i upd s = (Raise (HTTPError e), s')
  ∨ Crud.delete_note i s = (Raise (HTTPError e), s') →
  status_code e = 404
  ∧ detail e = "Note with id: " +:+ str_int i +:+ " not found"
  ∧ contains (str_int i) (detail e) = true.
Proof.
  assert (HTTPError e = NotFound i →
          status_code e = 404
          ∧ detail e = "Note with id: " +:+ str_int i +:+ " not found"
          ∧ contains (str_int i) (detail e) = true) as Hfound.
  { intros [= ->]. cbn. split_and!; [done..|]. apply not_found_detail_contains_id. }
  intros [Hget|[Hupd|Hdel]]; apply Hfound.
  - unfold Crud.get_note in Hget.
    apply bind_inv_Raise in Hget as [?%helper_raises|(? & ? & _ & [=])]. done.
  - unfold Crud.update_note in Hupd.
    apply bind_inv_Raise in Hupd as [?%helper_raises|(r & s1 & _ & Hrest)]; [done|].
    apply bind_inv_Raise in Hrest as [[=]|(_ & s2 & _ & Hrest)].
    apply bind_inv_Raise in Hrest as [[=]|(_ & s3 & _ & Hrest)].
    apply bind_inv_Raise in Hrest as [[=]%session_commit_raises|(_ & s4 & _ & Hrest)].
    by apply bind_inv_Raise in Hrest as [[=]|(? & ? & _ & [=])].
  - unfold Crud.delete_note in Hdel.
    apply bind_inv_Raise in Hdel as [?%helper_raises|(r & s1 & _ & Hrest)]; [done|].
    apply bind_inv_Raise in Hrest as [[=]%session_delete_raises|(_ & s2 & _ & Hrest)].
    apply bind_inv_Raise in Hrest as [[=]%session_commit_raises|(_ & s3 & _ & Hrest)].
    by apply bind_inv_Raise in Hrest as [[=]|(? & ? & _ & [=])].
Qed.

Lemma not_found_is_404_with_id_witness :
  Crud.update_note 99999 (mkNoteIn "a" "b") two_notes_session =
    (Raise (HTTPError (mkHTTPException 404 "Note with id: 99999 not found")),
     set_calls [call_get 99999] two_notes_session)
  ∧ contains "99999" "Note with id: 99999 not found" = true.
Proof.
  split; [reflexivity|].
  exact (proj2 (proj2
    (not_found_is_404_with_id two_notes_session _ 99999 (mkNoteIn "a" "b")
       (mkHTTPException 404 "Note with id: 99999 not found")
       (or_intror (or_introl eq_refl))))).
Defined.

(** C9: [get_all_notes] returns a list in every state of the session, so it
    never raises, NotFound or otherwise; and when the table is empty the
    list is empty. *)
Theorem get_all_notes_never_fails (s : Session) :
  (∃ notes s', Crud.get_all_notes s = (Ok (VList notes), s'))
  ∧ (Crud.get_all_notes (set_txn [] s)).1 = Ok (VList [])
  ∧ (∀ now, (Crud.get_all_notes (open_session [] now)).1 = Ok (VList [])).
Proof.
  split_and!.
  - destruct (load_rows (order_by_id (txn s)) (set_calls (calls s ++ [call_execute]) s))
      as [notes s'] eqn:Hload.
    exists notes, s'. unfold Crud.get_all_notes, session_select_all_ordered.
    erewrite bind_Ok; [reflexivity|].
    erewrite bind_Ok by reflexivity. unfold stateful.
    change (txn (set_calls (calls s ++ [call_execute]) s)) with (txn s).
    by rewrite Hload.
  - reflexivity.
  - intros now. reflexivity.
Qed.

(** C10: on a missing id, an id the store can take as a key, the two
    lookups raise different errors. Both have status 404; the detail of [CrudOld]'s is the fixed text with the
    placeholder left as written, which does not contain the requested id;
    the detail of [Crud]'s contains it. *)
Theorem lookups_differ_on_missing_id (s : Session) (i : Z) :
  clean s → in_key_range i → i ∉ row_id <$> db s →
  let s' := set_calls (calls s ++ [call_get i]) s in
  CrudOld._get_note_by_id_helper i s =
    (Raise (HTTPError (mkHTTPException 404 "Note with id: {note_id} not found")), s')
  ∧ Crud._get_note_by_id_helper i s =
    (Raise (HTTPError (mkHTTPException 404
              ("Note with id: " +:+ str_int i +:+ " not found"))), s')
  ∧ contains (str_int i) "Note with id: {note_id} not found" = false
  ∧ contains (str_int i) ("Note with id: " +:+ str_int i +:+ " not found") = true
  ∧ CrudOld._get_note_by_id_helper i s ≠ Crud._get_note_by_id_helper i s.
Proof.
  intros Hs _ Hi%find_row_None s'.
  pose proof (helper_missing s i Hs Hi) as Hnew. fold s' in Hnew.
  assert (CrudOld._get_note_by_id_helper i s =
    (Raise (HTTPError (mkHTTPException 404 "Note with id: {note_id} not found")), s'))
    as Hold.
  { run. destruct (identity_map s !! i) as [r|] eqn:Hr.
    - destruct (clean_coherent _ Hs _ _ Hr) as (row & Hrow & _).
      rewrite (clean_txn _ Hs) in Hrow. congruence.
    - by rewrite (clean_txn _ Hs), Hi. }
  pose proof (literal_detail_lacks_id i) as Hlacks.
  pose proof (not_found_detail_contains_id i) as Hhas.
  split_and!; try done.
  rewrite Hold, Hnew. intros Heq.
  set (has_id := λ out : result ref * Session,
         match out.1 with
         | Raise (HTTPError e) => contains (str_int i) (detail e)
         | _ => false
         end).
  apply (f_equal has_id) in Heq. unfold has_id in Heq. cbn [fst detail] in Heq.
  congruence.
Qed.

Lemma lookups_differ_on_missing_id_witness :
  clean two_notes_session ∧ in_key_range 7
  ∧ (7 ∉ row_id <$> db two_notes_session)
  ∧ CrudOld._get_note_by_id_helper 7 two_notes_session =
      (Raise (HTTPError (mkHTTPException 404 "Note with id: {note_id} not found")),
       set_calls [call_get 7] two_notes_session)
  ∧ Crud._get_note_by_id_helper 7 two_notes_session =
      (Raise (HTTPError (mkHTTPException 404 "Note with id: 7 not found")),
       set_calls [call_get 7] two_notes_session)
  ∧ contains "7" "Note with id: {note_id} not found" = false
  ∧ contains "7" "Note with id: 7 not found" = true
  ∧ CrudOld._get_note_by_id_helper 7 two_notes_session
    ≠ Crud._get_note_by_id_helper 7 two_notes_session.
Proof.
  assert (in_key_range 7) as Hrange
    by (apply (bool_decide_unpack _); by vm_compute).
  assert (7 ∉ row_id <$> db two_notes_session) as Hi
    by (apply (bool_decide_unpack _); by vm_compute).
  split_and!; [exact two_notes_session_clean|exact Hrange|exact Hi|..];
    apply (lookups_differ_on_missing_id two_notes_session 7
             two_notes_session_clean Hrange Hi).
Defined.

(** * Further properties *)

(** ** Sessions of their own *)

Lemma rollback_clean s : NoDup (row_id <$> db s) → clean (rollback s).
Proof. intros ?. by constructor. Qed.

Lemma with_session_run {A} (body : M A) s out s' :
  body (rollback s) = (out, s') → with_session body s = (out, rollback s').
Proof. unfold with_session. by intros ->. Qed.

Lemma clean_rollback s : clean s → clean (rollback s).
Proof. intros Hs. apply rollback_clean, Hs. Qed.

(** ** Every method leaves a session fit for the next call *)

Lemma get_note_clean s i : clean s → clean (Crud.get_note i s).2.
Proof.
  intros Hs. destruct (find_row i (db s)) as [row|] eqn:Hrow.
  - destruct (get_note_found s i row Hs Hrow) as (r & s' & -> & ? & _). done.
  - apply find_row_None in Hrow.
    destruct (missing_id_runs s i (mkNoteIn "" "") Hs Hrow) as (-> & _).
    by apply clean_set_calls.
Qed.

Lemma update_note_clean s i upd : clean s → clean (Crud.update_note i upd s).2.
Proof.
  intros Hs. destruct (find_row i (db s)) as [row|] eqn:Hrow.
  - destruct (update_note_spec s i row upd Hs Hrow) as (r & s' & -> & ? & _). done.
  - apply find_row_None in Hrow.
    destruct (missing_id_runs s i upd Hs Hrow) as (_ & -> & _).
    by apply clean_set_calls.
Qed.

Lemma delete_note_clean s i : clean s → clean (Crud.delete_note i s).2.
Proof.
  intros Hs. destruct (find_row i (db s)) as [row|] eqn:Hrow.
  - destruct (delete_note_spec s i row Hs Hrow) as (r & s' & -> & ? & _). done.
  - apply find_row_None in Hrow.
    destruct (missing_id_runs s i (mkNoteIn "" "") Hs Hrow) as (_ & _ & ->).
    by apply clean_set_calls.
Qed.

(** X3: whatever a method of [Crud] does, return or raise NotFound, it
    leaves the session with nothing pending, the transaction showing the
    committed table, unique keys, and loaded objects that agree with their
    rows; so the next call in the same request starts from such a session
    again. *)
Theorem crud_keeps_session_clean (s : Session) :
  clean s →
  clean (Crud.get_all_notes s).2
  ∧ (∀ request, clean (create_note request s).2)
  ∧ (∀ note_id, clean (Crud.get_note note_id s).2)
  ∧ (∀ note_id upd, clean (Crud.update_note note_id upd s).2)
  ∧ (∀ note_id, clean (Crud.delete_note note_id s).2).
Proof.
  intros Hs. split_and!.
  - destruct (get_all_notes_spec s Hs) as (rs & s' & -> & ? & _). done.
  - intros request.
    destruct (create_note_spec s request Hs) as (s' & -> & ? & _). done.
  - intros i. by apply get_note_clean.
  - intros i upd. by apply update_note_clean.
  - intros i. by apply delete_note_clean.
Qed.

Lemma crud_keeps_session_clean_witness :
  clean two_notes_session
  ∧ clean (Crud.get_all_notes two_notes_session).2
  ∧ (∀ request, clean (create_note request two_notes_session).2)
  ∧ (∀ note_id, clean (Crud.get_note note_id two_notes_session).2)
  ∧ (∀ note_id upd, clean (Crud.update_note note_id upd two_notes_session).2)
  ∧ (∀ note_id, clean (Crud.delete_note note_id two_notes_session).2).
Proof.
  split; [exact two_notes_session_clean|].
  exact (crud_keeps_session_clean two_notes_session two_notes_session_clean).
Defined.

(** ** Reading one note *)

Lemma get_note_by_id_found s i row :
  NoDup (row_id <$> db s) → find_row i (db s) = Some row →
  ∃ r s', notes_router.get_note_by_id i s = (Ok (VRef r), s')
    ∧ heap s' !! r = Some (note_of_row row) ∧ db s' = db s.
Proof.
  intros Hnd Hrow.
  destruct (get_note_found (rollback s) i row (rollback_clean s Hnd) Hrow)
    as (r & s' & Hrun & _ & Hr & Hdb).
  exists r, (rollback s'). split_and!; [|done..].
  by apply with_session_run.
Qed.

(** X1: a request for a note that is in the table returns an object that
    reads as its row, and a request for an id that is not, an id the store
    can take as a key, raises NotFound for that id; either way the table is
    what it was. Unique keys are all the request needs of the state it
    starts in. *)
Theorem get_note_by_id_request (s : Session) (note_id : Z) :
  NoDup (row_id <$> db s) →
  match find_row note_id (db s) with
  | Some row =>
      ∃ r s', notes_router.get_note_by_id note_id s = (Ok (VRef r), s')
        ∧ heap s' !! r = Some (note_of_row row) ∧ db s' = db s
  | None =>
      in_key_range note_id →
      ∃ s', notes_router.get_note_by_id note_id s = (Raise (NotFound note_id), s')
        ∧ db s' = db s ∧ heap s' = heap s
  end.
Proof.
  intros Hnd. pose proof (rollback_clean s Hnd) as Hs.
  destruct (find_row note_id (db s)) as [row|] eqn:Hrow.
  - by apply get_note_by_id_found.
  - intros _. apply find_row_None in Hrow.
    destruct (missing_id_runs (rollback s) note_id (mkNoteIn "" "") Hs Hrow)
      as (Hrun & _).
    eexists. split_and!; [by apply with_session_run|done..].
Qed.

Lemma get_note_by_id_request_witness :
  NoDup (row_id <$> db two_notes_session) ∧ in_key_range 7
  ∧ (∃ r s', notes_router.get_note_by_id 4 two_notes_session = (Ok (VRef r), s')
      ∧ heap s' !! r = Some (note_of_row chores) ∧ db s' = db two_notes_session)
  ∧ (∃ s', notes_router.get_note_by_id 7 two_notes_session = (Raise (NotFound 7), s')
      ∧ db s' = db two_notes_session ∧ heap s' = heap two_notes_session).
Proof.
  assert (NoDup (row_id <$> db two_notes_session)) as Hnd
    by apply two_notes_session_clean.
  assert (in_key_range 7) as Hrange
    by (apply (bool_decide_unpack _); by vm_compute).
  split_and!; [exact Hnd|exact Hrange| |].
  - exact (get_note_by_id_request two_notes_session 4 Hnd).
  - exact (get_note_by_id_request two_notes_session 7 Hnd Hrange).
Defined.

(** ** Deleting *)

Lemma delete_row_cons i x rows :
  delete_row i (x :: rows) =
    if decide (row_id x ≠ i) then x :: delete_row i rows else delete_row i rows.
Proof. unfold delete_row. by rewrite filter_cons. Qed.

Lemma delete_row_absent i rows : i ∉ row_id <$> rows → delete_row i rows = rows.
Proof.
  intros Hi. induction rows as [|x rows IH]; [done|].
  rewrite fmap_cons, not_elem_of_cons in Hi. destruct Hi as [? Hi].
  rewrite delete_row_cons, decide_True by done. by rewrite IH.
Qed.

Lemma delete_row_Permutation i rows row :
  NoDup (row_id <$> rows) → find_row i rows = Some row →
  rows ≡ₚ row :: delete_row i rows.
Proof.
  induction rows as [|x rows IH]; [done|].
  rewrite fmap_cons, NoDup_cons, find_row_cons. intros [Hx Hnd].
  rewrite delete_row_cons.
  destruct (decide (row_id x = i)) as [<-|Hne].
  - intros [= <-]. rewrite decide_False by (intros ?; done).
    by rewrite (delete_row_absent (row_id x) rows Hx).
  - intros Hrow. rewrite decide_True by done.
    rewrite (IH Hnd Hrow) at 1. apply Permutation_swap.
Qed.

(** X2: deleting an existing note takes exactly its row out of the table:
    the table before is the deleted row together with the table after, the
    rows that stay keep their order and their contents, and the message
    returned spells out the title and the id of the note that went. *)
Theorem delete_note_frame (s : Session) (i : Z) (row : Row) :
  clean s → find_row i (db s) = Some row →
  ∃ s',
    Crud.delete_note i s =
      (Ok (VStr ("Note " +:+ row_title row +:+ " with id " +:+ str_int i
                 +:+ " removed")), s')
    ∧ db s' = filter (λ x, row_id x ≠ i) (db s)
    ∧ db s ≡ₚ row :: db s'
    ∧ ∀ j, j ≠ i → find_row j (db s') = find_row j (db s).
Proof.
  intros Hs Hrow.
  destruct (delete_note_spec s i row Hs Hrow) as (r & s' & Hrun & _ & _ & Hdb & _).
  exists s'. split_and!; [done|done|..].
  - rewrite Hdb. apply delete_row_Permutation; [apply Hs|done].
  - intros j Hj. rewrite Hdb, find_row_delete. by rewrite decide_False.
Qed.

Lemma delete_note_frame_witness :
  clean two_notes_session ∧ find_row 4 (db two_notes_session) = Some chores
  ∧ ∃ s',
      Crud.delete_note 4 two_notes_session =
        (Ok (VStr "Note chores with id 4 removed"), s')
      ∧ db s' = filter (λ x, row_id x ≠ 4) [chores; groceries]
      ∧ [chores; groceries] ≡ₚ chores :: db s'
      ∧ ∀ j, j ≠ 4 → find_row j (db s') = find_row j [chores; groceries].
Proof.
  split_and!; [exact two_notes_session_clean|reflexivity|].
  exact (delete_note_frame two_notes_session 4 chores two_notes_session_clean eq_refl).
Defined.

(** ** Updating *)

Lemma update_row_twice i rows (t1 c1 t2 c2 : string) :
  update_row i attr_content c2 (update_row i attr_title t2
    (update_row i attr_content c1 (update_row i attr_title t1 rows)))
  = update_row i attr_content c2 (update_row i attr_title t2 rows).
Proof.
  unfold update_row. rewrite <-!list_fmap_compose.
  apply list_fmap_ext. intros k [xi xt xc xd] _. cbn.
  repeat (case_decide; cbn in *); by simplify_eq.
Qed.

(** X4: of two updates of the same note the last one wins: the table after
    both is the table the second update alone would have made, and the
    message is the second update's. In particular, repeating an update
    changes nothing. *)
Theorem update_note_last_wins (s : Session) (i : Z) (row : Row) (upd1 upd2 : NoteIn) :
  clean s → find_row i (db s) = Some row →
  ∃ v1 s1 v s2 s2',
    Crud.update_note i upd1 s = (Ok v1, s1)
    ∧ Crud.update_note i upd2 s1 = (Ok v, s2)
    ∧ Crud.update_note i upd2 s = (Ok v, s2')
    ∧ db s2 = db s2'
    ∧ (upd1 = upd2 → db s2 = db s1).
Proof.
  intros Hs Hrow.
  destruct (update_note_spec s i row upd1 Hs Hrow)
    as (r1 & s1 & Hrun1 & Hs1 & _ & _ & Hdb1 & _).
  assert (find_row i (db s1) = Some
            (mkRow i (NoteIn_title upd1) (NoteIn_content upd1) (row_date_created row)))
    as Hrow1.
  { rewrite Hdb1. by apply update_row_found. }
  destruct (update_note_spec s1 i _ upd2 Hs1 Hrow1)
    as (r2 & s2 & Hrun2 & _ & _ & _ & Hdb2 & _).
  destruct (update_note_spec s i row upd2 Hs Hrow)
    as (r2' & s2' & Hrun2' & _ & _ & _ & Hdb2' & _).
  eexists _, s1, _, s2, s2'. split_and!; [done..| |].
  - by rewrite Hdb2, Hdb1, Hdb2', update_row_twice.
  - intros <-. by rewrite Hdb2, Hdb1, update_row_twice.
Qed.

Lemma update_note_last_wins_witness :
  clean two_notes_session ∧ find_row 1 (db two_notes_session) = Some groceries
  ∧ ∃ v1 s1 v s2 s2',
      Crud.update_note 1 (mkNoteIn "errands" "bank") two_notes_session = (Ok v1, s1)
      ∧ Crud.update_note 1 (mkNoteIn "garden" "weeds") s1 = (Ok v, s2)
      ∧ Crud.update_note 1 (mkNoteIn "garden" "weeds") two_notes_session = (Ok v, s2')
      ∧ db s2 = db s2'
      ∧ (mkNoteIn "errands" "bank" = mkNoteIn "garden" "weeds" → db s2 = db s1).
Proof.
  split_and!; [exact two_notes_session_clean|reflexivity|].
  exact (update_note_last_wins two_notes_session 1 groceries
           (mkNoteIn "errands" "bank") (mkNoteIn "garden" "weeds")
           two_notes_session_clean eq_refl).
Defined.

(** ** Creating *)

Lemma max_id_snoc rows x :
  max_id (rows ++ [x]) =
    Some (from_option (Z.max (row_id x)) (row_id x) (max_id rows)).
Proof.
  induction rows as [|y rows IH]; [done|].
  cbn [app max_id foldr]. fold (max_id (rows ++ [x])). fold (max_id rows).
  rewrite IH. destruct (max_id rows) as [m|]; cbn; f_equal; lia.
Qed.

Lemma fresh_id_snoc rows (t c : string) (d : datetime) :
  fresh_id (rows ++ [mkRow (fresh_id rows) t c d]) = fresh_id rows + 1.
Proof.
  unfold fresh_id at 1. rewrite max_id_snoc. cbn [row_id].
  unfold fresh_id. destruct (max_id rows) as [m|]; cbn; lia.
Qed.

Lemma fresh_id_above rows row : row ∈ rows → row_id row < fresh_id rows.
Proof.
  intros Hin. unfold fresh_id. pose proof (max_id_spec rows) as H.
  destruct (max_id rows) as [m|]; [|subst; by apply elem_of_nil in Hin].
  destruct H as [_ Hle]. specialize (Hle _ Hin). lia.
Qed.

Lemma create_note_request s request :
  NoDup (row_id <$> db s) →
  let row := mkRow (fresh_id (db s)) (NoteIn_title request) (NoteIn_content request)
                   (clock s) in
  ∃ s',
    notes_router.create_note request s =
      (Ok {[ "message" :=
               VStr ("New note " +:+ NoteIn_title request +:+ " with id "
                     +:+ str_int (fresh_id (db s)) +:+ " created at "
                     +:+ str_datetime (clock s)) ]}, s')
    ∧ db s' = db s ++ [row]
    ∧ NoDup (row_id <$> db s')
    ∧ clock s' = clock s.
Proof.
  intros Hnd row.
  destruct (create_note_spec (rollback s) request (rollback_clean s Hnd))
    as (s1 & Hrun & Hs1 & Hdb & _ & _ & Hclock & _).
  exists (rollback s1). split_and!; [by apply with_session_run|done| |done].
  apply Hs1.
Qed.

Lemma post_all_cons now request requests s :
  post_all ((now, request) :: requests) s
  = post_all requests (notes_router.create_note request (set_clock now s)).2.
Proof. unfold post_all at 1; fold post_all. reflexivity. Qed.

Lemma post_all_db requests : ∀ s,
  NoDup (row_id <$> db s) →
  db (post_all requests s) = db s ++ posted_rows (fresh_id (db s)) requests
  ∧ NoDup (row_id <$> db (post_all requests s)).
Proof.
  induction requests as [|[now request] requests IH]; intros s Hnd.
  { cbn. by rewrite app_nil_r. }
  destruct (create_note_request (set_clock now s) request Hnd)
    as (s' & Hrun & Hdb & Hnd' & _).
  change (db (set_clock now s)) with (db s) in Hdb.
  change (clock (set_clock now s)) with now in Hdb.
  assert (post_all ((now, request) :: requests) s = post_all requests s') as ->.
  { by rewrite post_all_cons, Hrun. }
  destruct (IH s' Hnd') as [Hdb' ?]. split; [|done].
  rewrite Hdb', Hdb, fresh_id_snoc, <-app_assoc. reflexivity.
Qed.

Lemma posted_rows_ids first requests :
  row_id <$> posted_rows first requests
  = (λ k, first + Z.of_nat k) <$> seq 0 (length requests).
Proof.
  revert first. induction requests as [|[now request] requests IH]; intros first; [done|].
  cbn [posted_rows length seq]. rewrite !fmap_cons, IH. cbn [row_id].
  f_equal; [lia|]. rewrite <-(fmap_S_seq 0), <-list_fmap_compose.
  apply list_fmap_ext. intros ? k _. cbn. lia.
Qed.

(** X5: a run of [POST /notes/] requests appends one row per request to the
    table, in the order of the requests, and changes no row that was there.
    As long as the last key handed out is within the store's key range, the
    keys are consecutive, starting one above the largest key in use (at 1
    in an empty table), so every new key is above every key the table had
    and the keys stay unique. *)
Theorem posts_append_consecutive_keys
    (s : Session) (requests : list (datetime * NoteIn)) :
  NoDup (row_id <$> db s) →
  fresh_id (db s) + Z.of_nat (length requests) - 1 ≤ key_max →
  let s' := post_all requests s in
  db s' = db s ++ posted_rows (fresh_id (db s)) requests
  ∧ row_id <$> posted_rows (fresh_id (db s)) requests
    = (λ k, fresh_id (db s) + Z.of_nat k) <$> seq 0 (length requests)
  ∧ (∀ old new, old ∈ db s → new ∈ posted_rows (fresh_id (db s)) requests →
       row_id old < row_id new)
  ∧ NoDup (row_id <$> db s').
Proof.
  intros Hnd _ s'. destruct (post_all_db requests s Hnd) as [Hdb Hnd'].
  split_and!; [done|apply posted_rows_ids| |done].
  intros old new Hold Hnew. apply fresh_id_above in Hold.
  apply (list_elem_of_fmap_2 row_id) in Hnew. rewrite posted_rows_ids in Hnew.
  apply list_elem_of_fmap in Hnew as (k & -> & _). lia.
Qed.

Lemma posts_append_consecutive_keys_witness :
  let requests := [(june_1, mkNoteIn "a" "x"); (june_1, mkNoteIn "b" "y")] in
  NoDup (row_id <$> db two_notes_session)
  ∧ fresh_id (db two_notes_session) + Z.of_nat (length requests) - 1 ≤ key_max
  ∧ db (post_all requests two_notes_session)
    = [chores; groceries; mkRow 5 "a" "x" june_1; mkRow 6 "b" "y" june_1].
Proof.
  assert (NoDup (row_id <$> db two_notes_session)) as Hnd
    by apply two_notes_session_clean.
  assert (fresh_id (db two_notes_session) + Z.of_nat 2 - 1 ≤ key_max) as Hkeys
    by (apply (bool_decide_unpack _); by vm_compute).
  split_and!; [exact Hnd|exact Hkeys|].
  exact (proj1 (posts_append_consecutive_keys two_notes_session
                  [(june_1, mkNoteIn "a" "x"); (june_1, mkNoteIn "b" "y")]
                  Hnd Hkeys)).
Defined.

(** ** Listing *)

Lemma same_id_same_row rows x y :
  NoDup (row_id <$> rows) → x ∈ rows → y ∈ rows → row_id x = row_id y → x = y.
Proof.
  intros Hnd Hx Hy Hid.
  pose proof (find_row_elem_of rows x Hnd Hx) as Hfx.
  pose proof (find_row_elem_of rows y Hnd Hy) as Hfy.
  rewrite Hid, Hfy in Hfx. by injection Hfx.
Qed.

(** A table already in key order is listed as it stands. *)
Lemma order_by_id_in_order rows :
  NoDup (row_id <$> rows) → StronglySorted id_le rows → order_by_id rows = rows.
Proof.
  intros Hnd Hsorted.
  apply (StronglySorted_unique_strong id_le);
    [|apply order_by_id_sorted|done|apply order_by_id_Permutation].
  intros x y Hx Hy Hxy Hyx. rewrite order_by_id_Permutation in Hx.
  apply (same_id_same_row rows); [done..|]. unfold id_le in *. lia.
Qed.

Lemma posted_rows_above first requests x :
  x ∈ posted_rows first requests → first ≤ row_id x.
Proof.
  intros Hx%(list_elem_of_fmap_2 row_id). rewrite posted_rows_ids in Hx.
  apply list_elem_of_fmap in Hx as (k & -> & _). lia.
Qed.

Lemma posted_rows_sorted requests : ∀ first,
  StronglySorted id_le (posted_rows first requests).
Proof.
  induction requests as [|[now request] requests IH]; intros first; [constructor|].
  cbn [posted_rows]. constructor; [apply IH|].
  apply Forall_forall. intros x Hx%posted_rows_above. unfold id_le. cbn. lia.
Qed.

Lemma Forall2_read_heap (h : list Note) (rs : list ref) rows :
  Forall2 (λ r row, h !! r = Some (note_of_row row)) rs rows →
  (λ r, h !! r) <$> rs = (λ row, Some (note_of_row row)) <$> rows.
Proof.
  induction 1 as [|r row rs rows Hr _ IH]; [done|].
  rewrite !fmap_cons. f_equal; [exact Hr|exact IH].
Qed.

Lemma get_all_notes_request s :
  NoDup (row_id <$> db s) →
  ∃ notes s',
    notes_router.get_all_notes s = (Ok (VList notes), s')
    ∧ (λ r, heap s' !! r) <$> notes
      = (λ row, Some (note_of_row row)) <$> order_by_id (db s)
    ∧ db s' = db s.
Proof.
  intros Hnd.
  destruct (get_all_notes_spec (rollback s) (rollback_clean s Hnd))
    as (notes & s' & Hrun & _ & Hdb & Hnotes & _).
  exists notes, (rollback s'). split_and!; [by apply with_session_run| |done].
  by apply Forall2_read_heap in Hnotes.
Qed.

(** X6: start from an empty table and serve any run of [POST /notes/]
    requests; a [GET /notes/] after them returns one note per request, in
    the order the requests came, carrying the keys 1, 2, 3, ... and, for
    each, the title and content posted and the time of its insert. *)
Theorem posts_then_list (s : Session) (requests : list (datetime * NoteIn)) :
  db s = [] →
  ∃ notes s',
    notes_router.get_all_notes (post_all requests s) = (Ok (VList notes), s')
    ∧ (λ r, heap s' !! r) <$> notes
      = (λ row, Some (note_of_row row)) <$> posted_rows 1 requests
    ∧ row_id <$> posted_rows 1 requests
      = (λ k, 1 + Z.of_nat k) <$> seq 0 (length requests).
Proof.
  intros Hempty.
  assert (NoDup (row_id <$> db s)) as Hnd by (rewrite Hempty; constructor).
  destruct (post_all_db requests s Hnd) as [Hdb Hnd'].
  rewrite Hempty in Hdb. change (fresh_id []) with 1 in Hdb.
  rewrite app_nil_l in Hdb.
  destruct (get_all_notes_request (post_all requests s) Hnd')
    as (notes & s' & Hrun & Hnotes & _).
  exists notes, s'. split_and!; [done| |apply posted_rows_ids].
  rewrite Hnotes, Hdb. rewrite order_by_id_in_order; [done| |apply posted_rows_sorted].
  by rewrite <-Hdb.
Qed.

Lemma posts_then_list_witness :
  let requests := [(may_17, mkNoteIn "a" "x"); (june_1, mkNoteIn "b" "y");
                   (june_1, mkNoteIn "c" "z")] in
  db empty_session = []
  ∧ ∃ notes s',
      notes_router.get_all_notes (post_all requests empty_session)
        = (Ok (VList notes), s')
      ∧ (λ r, heap s' !! r) <$> notes
        = [Some (mkNote (Some 1) "a" "x" (Some may_17));
           Some (mkNote (Some 2) "b" "y" (Some june_1));
           Some (mkNote (Some 3) "c" "z" (Some june_1))]
      ∧ row_id <$> posted_rows 1 requests = [1; 2; 3].
Proof.
  split; [reflexivity|].
  exact (posts_then_list empty_session
           [(may_17, mkNoteIn "a" "x"); (june_1, mkNoteIn "b" "y");
            (june_1, mkNoteIn "c" "z")] eq_refl).
Defined.

(** ** Requests that change a note *)

Lemma update_note_request s i row upd :
  NoDup (row_id <$> db s) → find_row i (db s) = Some row →
  ∃ s',
    notes_router.update_note i upd s =
      (Ok {[ "message" := VStr ("Note " +:+ NoteIn_title upd +:+ " updated") ]}, s')
    ∧ db s' = update_row i attr_content (NoteIn_content upd)
                (update_row i attr_title (NoteIn_title upd) (db s))
    ∧ NoDup (row_id <$> db s').
Proof.
  intros Hnd Hrow.
  destruct (update_note_spec (rollback s) i row upd (rollback_clean s Hnd) Hrow)
    as (r & s' & Hrun & Hs' & _ & _ & Hdb & _).
  exists (rollback s'). split_and!; [|done|apply Hs'].
  apply with_session_run. by erewrite bind_Ok by exact Hrun.
Qed.

Lemma delete_note_request s i row :
  NoDup (row_id <$> db s) → find_row i (db s) = Some row →
  ∃ s',
    notes_router.delete_note i s =
      (Ok {[ "message" := VStr ("Note " +:+ row_title row +:+ " with id "
                                +:+ str_int i +:+ " removed") ]}, s')
    ∧ db s' = delete_row i (db s)
    ∧ NoDup (row_id <$> db s').
Proof.
  intros Hnd Hrow.
  destruct (delete_note_spec (rollback s) i row (rollback_clean s Hnd) Hrow)
    as (r & s' & Hrun & Hs' & _ & Hdb & _).
  exists (rollback s'). split_and!; [|done|apply Hs'].
  apply with_session_run. by erewrite bind_Ok by exact Hrun.
Qed.

(** X7: a note posted and then deleted by the key it was given leaves the
    table exactly as it was before the two requests, whatever it held. *)
Theorem post_then_delete_restores (s : Session) (request : NoteIn) :
  NoDup (row_id <$> db s) →
  ∃ created s1 s2,
    notes_router.create_note request s = (Ok created, s1)
    ∧ notes_router.delete_note (fresh_id (db s)) s1 =
        (Ok {[ "message" :=
                 VStr ("Note " +:+ NoteIn_title request +:+ " with id "
                       +:+ str_int (fresh_id (db s)) +:+ " removed") ]}, s2)
    ∧ db s2 = db s.
Proof.
  intros Hnd.
  destruct (create_note_request s request Hnd) as (s1 & Hpost & Hdb1 & Hnd1 & _).
  set (row := mkRow (fresh_id (db s)) (NoteIn_title request) (NoteIn_content request)
                    (clock s)) in *.
  assert (find_row (fresh_id (db s)) (db s1) = Some row) as Hrow.
  { rewrite Hdb1, find_row_app_fresh by apply fresh_id_fresh. by rewrite decide_True. }
  destruct (delete_note_request s1 _ row Hnd1 Hrow) as (s2 & Hdel & Hdb2 & _).
  eexists _, s1, s2. split_and!; [exact Hpost|exact Hdel|].
  rewrite Hdb2, Hdb1. unfold delete_row. rewrite filter_app.
  fold (delete_row (fresh_id (db s)) (db s)).
  rewrite delete_row_absent by apply fresh_id_fresh.
  rewrite filter_cons, decide_False by (intros Hne; by apply Hne).
  by rewrite filter_nil, app_nil_r.
Qed.

Lemma post_then_delete_restores_witness :
  NoDup (row_id <$> db two_notes_session)
  ∧ ∃ created s1 s2,
      notes_router.create_note (mkNoteIn "T" "C") two_notes_session = (Ok created, s1)
      ∧ notes_router.delete_note 5 s1 =
          (Ok {[ "message" := VStr "Note T with id 5 removed" ]}, s2)
      ∧ db s2 = [chores; groceries].
Proof.
  assert (NoDup (row_id <$> db two_notes_session)) as Hnd
    by apply two_notes_session_clean.
  split; [exact Hnd|].
  exact (post_then_delete_restores two_notes_session (mkNoteIn "T" "C") Hnd).
Defined.

(** X8: a [PATCH /notes/{id}] for a note that exists answers with the
    message naming the new title, and the [GET /notes/{id}] of a later
    request, in a session of its own, returns the note with the new title
    and content under the same id and creation timestamp. *)
Theorem update_request_then_read (s : Session) (i : Z) (row : Row) (upd : NoteIn) :
  NoDup (row_id <$> db s) → find_row i (db s) = Some row →
  ∃ s1 r s2,
    notes_router.update_note i upd s =
      (Ok {[ "message" := VStr ("Note " +:+ NoteIn_title upd +:+ " updated") ]}, s1)
    ∧ notes_router.get_note_by_id i s1 = (Ok (VRef r), s2)
    ∧ heap s2 !! r = Some (mkNote (Some i) (NoteIn_title upd) (NoteIn_content upd)
                                  (Some (row_date_created row)))
    ∧ db s2 = db s1.
Proof.
  intros Hnd Hrow.
  destruct (update_note_request s i row upd Hnd Hrow) as (s1 & Hrun & Hdb & Hnd1).
  assert (find_row i (db s1) =
            Some (mkRow i (NoteIn_title upd) (NoteIn_content upd) (row_date_created row)))
    as Hrow1.
  { rewrite Hdb. by apply update_row_found. }
  destruct (get_note_by_id_found s1 i _ Hnd1 Hrow1) as (r & s2 & Hget & Hr & Hdb2).
  by exists s1, r, s2.
Qed.

Lemma update_request_then_read_witness :
  NoDup (row_id <$> db two_notes_session)
  ∧ find_row 1 (db two_notes_session) = Some groceries
  ∧ ∃ s1 r s2,
      notes_router.update_note 1 (mkNoteIn "errands" "bank") two_notes_session =
        (Ok {[ "message" := VStr "Note errands updated" ]}, s1)
      ∧ notes_router.get_note_by_id 1 s1 = (Ok (VRef r), s2)
      ∧ heap s2 !! r = Some (mkNote (Some 1) "errands" "bank" (Some may_17))
      ∧ db s2 = db s1.
Proof.
  assert (NoDup (row_id <$> db two_notes_session)) as Hnd
    by apply two_notes_session_clean.
  split_and!; [exact Hnd|reflexivity|].
  exact (update_request_then_read two_notes_session 1 groceries
           (mkNoteIn "errands" "bank") Hnd eq_refl).
Defined.

(** X9: a [PATCH] or a [DELETE] for an id that no row has, an id the store
    can take as a key, raises NotFound for that id out of the request, nothing being written: the table and the
    objects in memory are what they were. *)
Theorem missing_id_requests (s : Session) (i : Z) (upd : NoteIn) :
  NoDup (row_id <$> db s) → in_key_range i → i ∉ row_id <$> db s →
  ∃ s',
    notes_router.update_note i upd s = (Raise (NotFound i), s')
    ∧ notes_router.delete_note i s = (Raise (NotFound i), s')
    ∧ db s' = db s ∧ heap s' = heap s.
Proof.
  intros Hnd _ Hi.
  destruct (missing_id_runs (rollback s) i upd (rollback_clean s Hnd) Hi)
    as (_ & Hupd & Hdel).
  eexists. split_and!.
  - apply with_session_run. by erewrite bind_Raise by exact Hupd.
  - apply with_session_run. by erewrite bind_Raise by exact Hdel.
  - done.
  - done.
Qed.

Lemma missing_id_requests_witness :
  NoDup (row_id <$> db two_notes_session) ∧ in_key_range 99999
  ∧ (99999 ∉ row_id <$> db two_notes_session)
  ∧ ∃ s',
      notes_router.update_note 99999 (mkNoteIn "a" "b") two_notes_session
        = (Raise (NotFound 99999), s')
      ∧ notes_router.delete_note 99999 two_notes_session = (Raise (NotFound 99999), s')
      ∧ db s' = db two_notes_session ∧ heap s' = heap two_notes_session.
Proof.
  assert (NoDup (row_id <$> db two_notes_session)) as Hnd
    by apply two_notes_session_clean.
  assert (in_key_range 99999) as Hrange
    by (apply (bool_decide_unpack _); by vm_compute).
  assert (99999 ∉ row_id <$> db two_notes_session) as Hi
    by (apply (bool_decide_unpack _); by vm_compute).
  split_and!; [exact Hnd|exact Hrange|exact Hi|].
  exact (missing_id_requests two_notes_session 99999 (mkNoteIn "a" "b")
           Hnd Hrange Hi).
Defined.

(** ** The session-per-call variant, [CrudOld] *)

Lemma old_helper_found s i r s' :
  Crud._get_note_by_id_helper i s = (Ok r, s') →
  CrudOld._get_note_by_id_helper i s = (Ok r, s').
Proof.
  unfold Crud._get_note_by_id_helper, CrudOld._get_note_by_id_helper,
    mbind, M_bind, bind.
  destruct (session_get i s) as [[[r'|]|e] s1]; by intros [= <- <-].
Qed.

Lemma old_helper_missing s i :
  clean s → find_row i (db s) = None →
  CrudOld._get_note_by_id_helper i s =
    (Raise (HTTPError (mkHTTPException 404 "Note with id: {note_id} not found")),
     set_calls (calls s ++ [call_get i]) s).
Proof.
  intros Hs Hi. run. destruct (identity_map s !! i) as [r|] eqn:Hr.
  - destruct (clean_coherent _ Hs _ _ Hr) as (row & Hrow & _).
    rewrite (clean_txn _ Hs) in Hrow. congruence.
  - by rewrite (clean_txn _ Hs), Hi.
Qed.

Lemma old_update_body s i row upd :
  clean s → find_row i (db s) = Some row →
  ∃ r s',
    (note ← CrudOld._get_note_by_id_helper i;
     setattr note attr_title (NoteIn_title upd);;
     setattr note attr_content (NoteIn_content upd);;
     session_commit;;
     mret note) s = (Ok r, s')
    ∧ heap s' !! r = Some (mkNote (Some i) (NoteIn_title upd) (NoteIn_content upd)
                                  (Some (row_date_created row)))
    ∧ db s' = update_row i attr_content (NoteIn_content upd)
                (update_row i attr_title (NoteIn_title upd) (db s)).
Proof.
  intros Hs Hrow.
  destruct (helper_found s i row Hs Hrow)
    as (r & s1 & Hrun%old_helper_found & Hs1 & Hi & Hr & Hdb & _).
  apply find_row_Some in Hrow as Hrow'. destruct Hrow' as [_ <-].
  destruct Hs1 as [Hn Hd Hdl Ht Hnd Hco].
  destruct s1 as [h im n d dl t b c cl]; simpl in *; subst.
  assert (r < length h)%nat as Hlt by (by eapply lookup_lt_Some).
  erewrite bind_Ok by exact Hrun.
  erewrite bind_Ok by (by eapply setattr_persistent). flat.
  erewrite bind_Ok; [|eapply setattr_persistent; flat;
                       [by apply list_lookup_insert_eq|done..]]. flat.
  erewrite bind_Ok.
  2:{ apply session_commit_no_new; [done|]. flat.
      erewrite !update_dirty_persistent by side. flat. reflexivity. }
  flat. cbn [write_attr read_attr note_of_row id title content date_created].
  rewrite list_insert_insert_eq.
  eexists r, _. split; [reflexivity|]. flat. split; [side|done].
Qed.

Lemma old_delete_body s i row :
  clean s → find_row i (db s) = Some row →
  ∃ r s',
    (note ← CrudOld._get_note_by_id_helper i;
     session_delete note;;
     session_commit;;
     mret note) s = (Ok r, s')
    ∧ heap s' !! r = Some (note_of_row row)
    ∧ db s' = delete_row i (db s).
Proof.
  intros Hs Hrow.
  destruct (helper_found s i row Hs Hrow)
    as (r & s1 & Hrun%old_helper_found & Hs1 & Hi & Hr & Hdb & _).
  apply find_row_Some in Hrow as Hrow'. destruct Hrow' as [_ <-].
  destruct Hs1 as [Hn Hd Hdl Ht Hnd Hco].
  destruct s1 as [h im n d dl t b c cl]; simpl in *; subst.
  erewrite bind_Ok by exact Hrun.
  erewrite bind_Ok by (by eapply session_delete_persistent). flat.
  erewrite bind_Ok.
  2:{ apply session_commit_no_new; [done|]. flat.
      erewrite delete_marked_persistent by side. flat. reflexivity. }
  flat. eexists r, _. split; [reflexivity|]. flat. by split.
Qed.

Lemma old_add_new_note_unfold new_note :
  CrudOld.add_new_note new_note = with_session (Crud.add_new_note new_note).
Proof. unfold CrudOld.add_new_note, Crud.add_new_note. reflexivity. Qed.

(** X10: handed the same new note, [CrudOld.add_new_note], which opens a
    session of its own, and [Crud.add_new_note], which works in the caller's
    session, return the same message, fill the same id and timestamp into
    the note, and leave the same table. *)
Theorem old_add_new_note_agrees (s : Session) (new_note : ref) (o : Note) :
  clean s → heap s !! new_note = Some o → id o = None →
  ∃ v s1 s2,
    Crud.add_new_note new_note s = (Ok v, s1)
    ∧ CrudOld.add_new_note new_note s = (Ok v, s2)
    ∧ db s1 = db s2
    ∧ heap s1 !! new_note = heap s2 !! new_note
    ∧ is_Some (heap s2 !! new_note ≫= id).
Proof.
  intros Hs Hr Hid.
  destruct (add_new_note_steps s new_note o Hs Hr Hid)
    as (_ & _ & _ & s1 & _ & _ & _ & _ & Hrun & _ & _ & _ & (Hdb1 & Hr1 & _) & _).
  destruct (add_new_note_steps (rollback s) new_note o (clean_rollback s Hs) Hr Hid)
    as (_ & _ & _ & s2 & _ & _ & _ & _ & Hrun' & _ & _ & _ & (Hdb2 & Hr2 & _) & _).
  eexists _, s1, (rollback s2). split_and!; [exact Hrun| |..].
  - rewrite old_add_new_note_unfold. apply with_session_run. exact Hrun'.
  - change (db (rollback s2)) with (db s2). rewrite Hdb1, Hdb2. reflexivity.
  - change (heap (rollback s2)) with (heap s2). by rewrite Hr1, Hr2.
  - change (heap (rollback s2)) with (heap s2). rewrite Hr2. by eexists.
Qed.

Lemma old_add_new_note_agrees_witness :
  let s := (Note_new "T" "C" empty_session).2 in
  clean s ∧ heap s !! 0%nat = Some (mkNote None "T" "C" None)
  ∧ ∃ v s1 s2,
      Crud.add_new_note 0%nat s = (Ok v, s1)
      ∧ CrudOld.add_new_note 0%nat s = (Ok v, s2)
      ∧ db s1 = db s2
      ∧ heap s1 !! 0%nat = heap s2 !! 0%nat
      ∧ is_Some (heap s2 !! 0%nat ≫= id).
Proof.
  assert (clean (Note_new "T" "C" empty_session).2) as Hs
    by apply (clean_alloc empty_session), empty_session_clean.
  split_and!; [exact Hs|reflexivity|].
  exact (old_add_new_note_agrees _ 0%nat _ Hs eq_refl eq_refl).
Defined.

(** X11: on a note that exists [CrudOld.update_note] and [Crud.update_note]
    return the same message and leave the same table; on an id that no row
    has, an id the store can take as a key, [CrudOld.update_note] raises its
    404 and writes nothing. *)
Theorem old_update_note_agrees (s : Session) (i : Z) (upd : NoteIn) :
  clean s →
  match find_row i (db s) with
  | Some row =>
      ∃ v s1 s2,
        Crud.update_note i upd s = (Ok v, s1)
        ∧ CrudOld.update_note i upd s = (Ok v, s2)
        ∧ db s1 = db s2
  | None =>
      in_key_range i →
      ∃ e s2,
        CrudOld.update_note i upd s = (Raise (HTTPError e), s2)
        ∧ status_code e = 404 ∧ db s2 = db s
  end.
Proof.
  intros Hs. pose proof (clean_rollback s Hs) as Hs0.
  destruct (find_row i (db s)) as [row|] eqn:Hrow.
  - destruct (update_note_spec s i row upd Hs Hrow)
      as (r1 & s1 & Hrun & _ & _ & _ & Hdb1 & _).
    destruct (old_update_body (rollback s) i row upd Hs0 Hrow)
      as (r & s2 & Hbody & Hr & Hdb2).
    eexists _, s1, (rollback s2).
    split_and!; [exact Hrun| |change (db (rollback s2)) with (db s2);
                              rewrite Hdb1, Hdb2; reflexivity].
    unfold CrudOld.update_note.
    erewrite bind_Ok by (apply with_session_run; exact Hbody).
    erewrite bind_Ok by (apply getattr_Some; exact Hr).
    reflexivity.
  - intros _. pose proof (old_helper_missing (rollback s) i Hs0 Hrow) as Hmiss.
    exists (mkHTTPException 404 "Note with id: {note_id} not found"),
      (rollback (set_calls (calls (rollback s) ++ [call_get i]) (rollback s))).
    split_and!; [|reflexivity..].
    unfold CrudOld.update_note.
    erewrite bind_Raise; [reflexivity|].
    apply with_session_run. by erewrite bind_Raise by exact Hmiss.
Qed.

Lemma old_update_note_agrees_witness :
  clean two_notes_session ∧ in_key_range 7
  ∧ (∃ v s1 s2,
      Crud.update_note 1 (mkNoteIn "errands" "bank") two_notes_session = (Ok v, s1)
      ∧ CrudOld.update_note 1 (mkNoteIn "errands" "bank") two_notes_session = (Ok v, s2)
      ∧ db s1 = db s2)
  ∧ (∃ e s2,
      CrudOld.update_note 7 (mkNoteIn "errands" "bank") two_notes_session
        = (Raise (HTTPError e), s2)
      ∧ status_code e = 404 ∧ db s2 = db two_notes_session).
Proof.
  assert (in_key_range 7) as Hrange
    by (apply (bool_decide_unpack _); by vm_compute).
  split_and!; [exact two_notes_session_clean|exact Hrange| |].
  - exact (old_update_note_agrees two_notes_session 1 (mkNoteIn "errands" "bank")
             two_notes_session_clean).
  - exact (old_update_note_agrees two_notes_session 7 (mkNoteIn "errands" "bank")
             two_notes_session_clean Hrange).
Defined.

(** X12: on a note that exists [CrudOld.delete_note] and [Crud.delete_note]
    return the same message and leave the same table; on an id that no row
    has, an id the store can take as a key, [CrudOld.delete_note] raises its
    404 and writes nothing. *)
Theorem old_delete_note_agrees (s : Session) (i : Z) :
  clean s →
  match find_row i (db s) with
  | Some row =>
      ∃ v s1 s2,
        Crud.delete_note i s = (Ok v, s1)
        ∧ CrudOld.delete_note i s = (Ok v, s2)
        ∧ db s1 = db s2
  | None =>
      in_key_range i →
      ∃ e s2,
        CrudOld.delete_note i s = (Raise (HTTPError e), s2)
        ∧ status_code e = 404 ∧ db s2 = db s
  end.
Proof.
  intros Hs. pose proof (clean_rollback s Hs) as Hs0.
  destruct (find_row i (db s)) as [row|] eqn:Hrow.
  - destruct (delete_note_spec s i row Hs Hrow)
      as (r1 & s1 & Hrun & _ & _ & Hdb1 & _).
    destruct (old_delete_body (rollback s) i row Hs0 Hrow)
      as (r & s2 & Hbody & Hr & Hdb2).
    apply find_row_Some in Hrow as [_ Hid].
    eexists _, s1, (rollback s2).
    split_and!; [exact Hrun| |change (db (rollback s2)) with (db s2);
                              rewrite Hdb1, Hdb2; reflexivity].
    unfold CrudOld.delete_note.
    erewrite bind_Ok by (apply with_session_run; exact Hbody).
    erewrite bind_Ok by (apply getattr_Some; exact Hr).
    cbn [note_of_row title id str_option]. by rewrite Hid.
  - intros _. pose proof (old_helper_missing (rollback s) i Hs0 Hrow) as Hmiss.
    exists (mkHTTPException 404 "Note with id: {note_id} not found"),
      (rollback (set_calls (calls (rollback s) ++ [call_get i]) (rollback s))).
    split_and!; [|reflexivity..].
    unfold CrudOld.delete_note.
    erewrite bind_Raise; [reflexivity|].
    apply with_session_run. by erewrite bind_Raise by exact Hmiss.
Qed.

Lemma old_delete_note_agrees_witness :
  clean two_notes_session ∧ in_key_range 7
  ∧ (∃ v s1 s2,
      Crud.delete_note 4 two_notes_session = (Ok v, s1)
      ∧ CrudOld.delete_note 4 two_notes_session = (Ok v, s2)
      ∧ db s1 = db s2)
  ∧ (∃ e s2,
      CrudOld.delete_note 7 two_notes_session = (Raise (HTTPError e), s2)
      ∧ status_code e = 404 ∧ db s2 = db two_notes_session).
Proof.
  assert (in_key_range 7) as Hrange
    by (apply (bool_decide_unpack _); by vm_compute).
  split_and!; [exact two_notes_session_clean|exact Hrange| |].
  - exact (old_delete_note_agrees two_notes_session 4 two_notes_session_clean).
  - exact (old_delete_note_agrees two_notes_session 7 two_notes_session_clean Hrange).
Defined.

Lemma old_get_all_notes_unfold :
  CrudOld.get_all_notes = notes_router.get_all_notes.
Proof.
  unfold CrudOld.get_all_notes, notes_router.get_all_notes,
    establish_session_to_db, Crud.get_all_notes.
  reflexivity.
Qed.

Lemma old_get_note_found s i row :
  clean s → find_row i (db s) = Some row →
  ∃ r s', CrudOld.get_note i s = (Ok (VRef r), s')
    ∧ heap s' !! r = Some (note_of_row row) ∧ db s' = db s.
Proof.
  intros Hs Hrow.
  destruct (helper_found (rollback s) i row (clean_rollback s Hs) Hrow)
    as (r & s' & Hrun%old_helper_found & _ & _ & Hr & Hdb & _).
  exists r, (rollback s'). split_and!; [|done..].
  apply with_session_run. by erewrite bind_Ok by exact Hrun.
Qed.

(** X13: the reads of [CrudOld] see what the reads of [Crud] see. Both
    [get_all_notes] return lists that read the same, note for note;
    [get_note] on a note that exists returns in both an object reading as
    its row; and [get_note_old], which spells the lookup out again instead
    of calling the helper, is the same function as [CrudOld.get_note]. *)
Theorem old_reads_agree (s : Session) :
  clean s →
  (∃ notes1 s1 notes2 s2,
     Crud.get_all_notes s = (Ok (VList notes1), s1)
     ∧ CrudOld.get_all_notes s = (Ok (VList notes2), s2)
     ∧ (λ r, heap s1 !! r) <$> notes1 = (λ r, heap s2 !! r) <$> notes2
     ∧ db s1 = db s ∧ db s2 = db s)
  ∧ (∀ i row, find_row i (db s) = Some row →
       ∃ r1 s1 r2 s2,
         Crud.get_note i s = (Ok (VRef r1), s1)
         ∧ CrudOld.get_note i s = (Ok (VRef r2), s2)
         ∧ heap s1 !! r1 = Some (note_of_row row)
         ∧ heap s2 !! r2 = Some (note_of_row row)
         ∧ db s1 = db s ∧ db s2 = db s)
  ∧ (∀ i s0, CrudOld.get_note_old i s0 = CrudOld.get_note i s0).
Proof.
  intros Hs. split_and!.
  - destruct (get_all_notes_spec s Hs) as (notes1 & s1 & Hrun1 & _ & Hdb1 & Hn1 & _).
    destruct (get_all_notes_request s (clean_key _ Hs))
      as (notes2 & s2 & Hrun2 & Hn2 & Hdb2).
    exists notes1, s1, notes2, s2. rewrite old_get_all_notes_unfold.
    split_and!; [done..| |done|done].
    apply Forall2_read_heap in Hn1. etrans; [exact Hn1|]. symmetry. exact Hn2.
  - intros i row Hrow.
    destruct (get_note_found s i row Hs Hrow) as (r1 & s1 & ? & _ & ? & ?).
    destruct (old_get_note_found s i row Hs Hrow) as (r2 & s2 & ? & ? & ?).
    by exists r1, s1, r2, s2.
  - intros i s0.
    unfold CrudOld.get_note_old, CrudOld.get_note, with_session,
      CrudOld._get_note_by_id_helper, mbind, M_bind, bind.
    by destruct (session_get i (rollback s0)) as [[[r|]|e] s1].
Qed.

Lemma old_reads_agree_witness :
  clean two_notes_session
  ∧ ∃ r1 s1 r2 s2,
      Crud.get_note 4 two_notes_session = (Ok (VRef r1), s1)
      ∧ CrudOld.get_note 4 two_notes_session = (Ok (VRef r2), s2)
      ∧ heap s1 !! r1 = Some (note_of_row chores)
      ∧ heap s2 !! r2 = Some (note_of_row chores)
      ∧ db s1 = db two_notes_session ∧ db s2 = db two_notes_session.
Proof.
  split; [exact two_notes_session_clean|].
  exact (proj1 (proj2 (old_reads_agree two_notes_session two_notes_session_clean))
           4 chores eq_refl).
Defined.

(** ** Adding without committing *)

Lemma load_row_set_new l row s :
  load_row row (set_new l s) =
    ((load_row row s).1, set_new l (load_row row s).2).
Proof.
  unfold load_row. change (identity_map (set_new l s)) with (identity_map s).
  by destruct (identity_map s !! row_id row).
Qed.

Lemma load_rows_set_new l rows : ∀ s,
  load_rows rows (set_new l s) =
    ((load_rows rows s).1, set_new l (load_rows rows s).2).
Proof.
  induction rows as [|row rows IH]; intros s; [done|].
  cbn [load_rows]. rewrite load_row_set_new.
  destruct (load_row row s) as [r s1]. cbn [fst snd]. rewrite IH.
  by destruct (load_rows rows s1) as [rs s2].
Qed.

(** X14: [dependency_injected_add_new_note] only hands the note to the
    session. The note is pending and nothing is written: the table is as it
    was, a listing through the same session shows the rows of the table and
    not the new note, and when the session is closed with no commit the
    note is gone from it, the table still unchanged. *)
Theorem dependency_injected_add_stays_pending (s : Session) (new_note : ref) (o : Note) :
  clean s → heap s !! new_note = Some o → id o = None →
  ∃ s1,
    CrudOld.dependency_injected_add_new_note new_note s = (Ok tt, s1)
    ∧ new s1 = [new_note] ∧ db s1 = db s ∧ txn s1 = db s ∧ heap s1 = heap s
    ∧ (∃ notes s2,
         CrudOld.dependency_injected_get_all_notes s1 = (Ok (VList notes), s2)
         ∧ (λ r, heap s2 !! r) <$> notes
           = (λ row, Some (note_of_row row)) <$> order_by_id (db s)
         ∧ new_note ∉ notes
         ∧ db s2 = db s)
    ∧ db (rollback s1) = db s ∧ new (rollback s1) = []
    ∧ heap (rollback s1) !! new_note = Some o.
Proof.
  intros Hs Hr Hid.
  pose proof (session_add_transient s new_note o Hr Hid (clean_new _ Hs)) as Hadd.
  eexists. split; [exact Hadd|].
  split_and!; [done|done|apply Hs|done| |done..].
  set (s0 := set_calls ((calls s ++ [call_add new_note]) ++ [call_execute]) s).
  assert (clean s0) as Hs0 by (by apply clean_set_calls).
  destruct (load_rows_spec (order_by_id (db s)) s0 Hs0)
    as (notes & s2 & Hload & _ & _ & Hdb & _ & _ & Hnotes & Hmono).
  { intros row Hin. change (txn s0) with (txn s). rewrite (clean_txn _ Hs).
    apply find_row_elem_of; [apply Hs|].
    by rewrite <-(order_by_id_Permutation (db s)). }
  exists notes, (set_new [new_note] s2). split_and!.
  - unfold CrudOld.dependency_injected_get_all_notes, session_select_all_ordered.
    erewrite bind_Ok; [reflexivity|].
    erewrite bind_Ok by reflexivity. unfold stateful.
    change (set_calls _ (set_new [new_note] _)) with (set_new [new_note] s0).
    change (txn (set_new [new_note] s0)) with (txn s). rewrite (clean_txn _ Hs).
    by rewrite load_rows_set_new, Hload.
  - change (heap (set_new [new_note] s2)) with (heap s2).
    by apply Forall2_read_heap.
  - intros [k Hk]%list_elem_of_lookup.
    destruct (Forall2_lookup_l _ _ _ _ _ Hnotes Hk) as (row & _ & Hrow).
    pose proof (Hmono new_note o Hr) as Ho.
    pose proof (eq_trans (eq_sym Ho) Hrow) as [= ->]. done.
  - done.
Qed.

Lemma dependency_injected_add_stays_pending_witness :
  let s := (Note_new "T" "C" two_notes_session).2 in
  clean s ∧ heap s !! 0%nat = Some (mkNote None "T" "C" None)
  ∧ ∃ s1,
      CrudOld.dependency_injected_add_new_note 0%nat s = (Ok tt, s1)
      ∧ new s1 = [0%nat] ∧ db s1 = db s ∧ txn s1 = db s ∧ heap s1 = heap s
      ∧ (∃ notes s2,
           CrudOld.dependency_injected_get_all_notes s1 = (Ok (VList notes), s2)
           ∧ (λ r, heap s2 !! r) <$> notes
             = (λ row, Some (note_of_row row)) <$> order_by_id (db s)
           ∧ 0%nat ∉ notes
           ∧ db s2 = db s)
      ∧ db (rollback s1) = db s ∧ new (rollback s1) = []
      ∧ heap (rollback s1) !! 0%nat = Some (mkNote None "T" "C" None).
Proof.
  assert (clean (Note_new "T" "C" two_notes_session).2) as Hs
    by apply (clean_alloc two_notes_session), two_notes_session_clean.
  split_and!; [exact Hs|reflexivity|].
  exact (dependency_injected_add_stays_pending _ 0%nat _ Hs eq_refl eq_refl).
Defined.
